(** * CarbOnSeer autoscaler: a shallow embedding of [autoscaler/autoscaler.py]

    The development follows the class [CarbOnSeer]: the carbon resolver
    [get_carbon] with its two provider fetchers, the scorer
    [compute_scores], the ingestion handler [ReqHandler.do_POST] and one
    iteration of [run_loop].

    Conventions of the embedding.
    - A Python [float] is a [pyfloat]: a rational, or one of the three special
      values.  Arithmetic on finite values is exact: binary64 rounding and
      overflow are not modelled, except in the product [slo_p95_ms * 0.6]
      of [run_loop], which a latency is compared with to decide a branch
      and which is the binary64 product.  Comparisons, [max]/[min],
      division by zero and the special values follow Python.
    - Python [int]s (replica counts, JSON integers) are [Z].
    - Values loaded from JSON are [json] trees; the operations used on them
      ([in], subscripts, [.get], [float], [len], truthiness) raise what Python raises.
    - Code that can raise runs in the monad [M]: the object's mutable
      state is threaded, also through a raised exception, so that what a
      handler sees after [except] is what the [try] body left behind.
    - The network, the clock and the environment variables are a [world]
      handed to each call.
    - The configuration is read into numbers and records, and what the
      methods print and send goes through.  The module [Raw] has
      [get_carbon] and [do_POST] without these two assumptions, and
      [raw_get_carbon_typed] and [raw_do_POST_typed] relate the two
      readings. *)

From Stdlib Require Import ZArith QArith Qpower Qminmax Lqa Lia Bool List String
  Ascii.
From Stdlib Require SpecFloat.
Import ListNotations.

Set Warnings "-register-all".

Local Open Scope Q_scope.

(* ------------------------------------------------------------------ *)
(** ** Floats *)

Module PyFloat.

Inductive pyfloat : Type :=
| Fin (q : Q)
| PInf
| NInf
| NaN.

Definition fneg (a : pyfloat) : pyfloat :=
  match a with
  | Fin q => Fin (- q)
  | PInf => NInf
  | NInf => PInf
  | NaN => NaN
  end.

Definition fadd (a b : pyfloat) : pyfloat :=
  match a, b with
  | NaN, _ | _, NaN => NaN
  | Fin x, Fin y => Fin (x + y)
  | PInf, NInf | NInf, PInf => NaN
  | PInf, _ | _, PInf => PInf
  | NInf, _ | _, NInf => NInf
  end.

Definition fsub (a b : pyfloat) : pyfloat := fadd a (fneg b).

(** Sign of a rational: [Gt] positive, [Lt] negative, [Eq] zero. *)
Definition qsign (q : Q) : comparison := (q ?= 0).

(** An infinity times (or over) a finite factor of the given sign. *)
Definition inf_of_sign (c : comparison) : pyfloat :=
  match c with
  | Gt => PInf
  | Lt => NInf
  | Eq => NaN
  end.

Definition fmul (a b : pyfloat) : pyfloat :=
  match a, b with
  | NaN, _ | _, NaN => NaN
  | Fin x, Fin y => Fin (x * y)
  | PInf, Fin y | Fin y, PInf => inf_of_sign (qsign y)
  | NInf, Fin y | Fin y, NInf => inf_of_sign (qsign (- y))
  | PInf, PInf | NInf, NInf => PInf
  | PInf, NInf | NInf, PInf => NInf
  end.

(** [a < b] on floats; every comparison with [NaN] is false. *)
Definition flt (a b : pyfloat) : bool :=
  match a, b with
  | NaN, _ | _, NaN => false
  | Fin x, Fin y => negb (Qle_bool y x)
  | NInf, NInf | PInf, _ | _, NInf => false
  | NInf, _ | _, PInf => true
  end.

Definition fle (a b : pyfloat) : bool :=
  match a, b with
  | NaN, _ | _, NaN => false
  | Fin x, Fin y => Qle_bool x y
  | NInf, _ | _, PInf => true
  | PInf, _ | _, NInf => false
  end.

Definition fgt (a b : pyfloat) : bool := flt b a.
Definition fge (a b : pyfloat) : bool := fle b a.

Definition feqb (a b : pyfloat) : bool :=
  match a, b with
  | Fin x, Fin y => Qeq_bool x y
  | PInf, PInf | NInf, NInf => true
  | _, _ => false
  end.

(** The builtin [max(a, b)]: the first argument is kept unless the second
    compares greater, so [max(0.0, nan)] is [0.0]. *)
Definition pymax (a b : pyfloat) : pyfloat := if fgt b a then b else a.

(** The builtin [min(a, b)]. *)
Definition pymin (a b : pyfloat) : pyfloat := if flt b a then b else a.

Definition is_zero (a : pyfloat) : bool :=
  match a with
  | Fin q => Qeq_bool q 0
  | _ => false
  end.

(** The quotient [a / b] for a divisor that is not zero. *)
Definition fquot (a b : pyfloat) : pyfloat :=
  match a, b with
  | NaN, _ | _, NaN => NaN
  | Fin x, Fin y => Fin (x / y)
  | Fin _, _ => Fin 0
  | PInf, Fin y => inf_of_sign (qsign y)
  | NInf, Fin y => inf_of_sign (qsign (- y))
  | _, _ => NaN
  end.

End PyFloat.
Export PyFloat.

(* ------------------------------------------------------------------ *)
(** ** Binary64

    Where a rounded result decides a branch, the operation is the IEEE
    one of the Standard Library's [SpecFloat], at precision 53 and
    maximal exponent 1024. *)

Module Binary64.

Import SpecFloat.

Definition prec : Z := 53.
Definition emax : Z := 1024.

(** The binary64 value nearest to a rational, ties to even: the rational
    itself when it is a binary64 number, [float(n)] for an [int] [n].
    [SFdiv] divides the numerator by the denominator and rounds once.
    Past the largest binary64 value the result is an infinity, where
    [float(n)] raises. *)
Definition nearest (q : Q) : spec_float :=
  match Qnum q with
  | Z0 => S754_zero false
  | Zpos n =>
      SFdiv prec emax (S754_finite false n 0) (S754_finite false (Qden q) 0)
  | Zneg n =>
      SFdiv prec emax (S754_finite true n 0) (S754_finite false (Qden q) 0)
  end.

(** The literal [0.6]: [0x1.3333333333333p-1]. *)
Definition six_tenths : spec_float :=
  S754_finite false 5404319552844595 (-53).

(** The product of two floats. *)
Definition mul (x y : spec_float) : spec_float := SFmul prec emax x y.

(** The number a binary64 value is. *)
Definition value (x : spec_float) : pyfloat :=
  match x with
  | S754_zero _ => Fin 0
  | S754_infinity s => if s then NInf else PInf
  | S754_nan => NaN
  | S754_finite s m e =>
      let magnitude := inject_Z (Zpos m) * 2 ^ e in
      Fin (if s then - magnitude else magnitude)
  end.

(** A rational that is a binary64 number: [float] of it is a valid
    float and equals it. *)
Definition exact (q : Q) : bool :=
  valid_binary prec emax (nearest q) && feqb (value (nearest q)) (Fin q).

End Binary64.

(* ------------------------------------------------------------------ *)
(** ** Exceptions and results *)

Inductive pyexn : Type :=
| TypeError
| ValueError
| AttributeError
| KeyError
| IndexError
| ZeroDivisionError
| OverflowError
| UnicodeEncodeError
| RequestException.

Inductive pyres (A : Type) : Type :=
| Ok (a : A)
| Raise (e : pyexn).

Arguments Ok {A} a.
Arguments Raise {A} e.

(** [a / b]: Python raises on a zero divisor before looking at [a]. *)
Definition fdiv (a b : pyfloat) : pyres pyfloat :=
  if is_zero b then Raise ZeroDivisionError else Ok (fquot a b).

(* ------------------------------------------------------------------ *)
(** ** JSON values as Python holds them *)

Module Json.

Inductive json : Type :=
| JNull
| JBool (b : bool)
| JInt (z : Z)
| JFloat (x : pyfloat)
| JStr (s : string)
| JArr (l : list json)
| JObj (m : list (string * json)).

(** The items of a [dict] with string keys; a key occurs once. *)
Fixpoint assoc (k : string) (m : list (string * json)) : option json :=
  match m with
  | [] => None
  | (k', v) :: m' => if String.eqb k' k then Some v else assoc k m'
  end.

Definition is_str (k : string) (e : json) : bool :=
  match e with
  | JStr s => String.eqb s k
  | _ => false
  end.

Definition occurs_in (k s : string) : bool :=
  match String.index 0 k s with
  | Some _ => true
  | None => false
  end.

(** [k in j] for a string [k]: key test on a dict, membership in a list,
    substring test on a string, [TypeError] on everything else. *)
Definition py_in (k : string) (j : json) : pyres bool :=
  match j with
  | JObj m => Ok (match assoc k m with Some _ => true | None => false end)
  | JArr l => Ok (existsb (is_str k) l)
  | JStr s => Ok (occurs_in k s)
  | _ => Raise TypeError
  end.

(** [j[k]] for a string [k]. *)
Definition py_getitem (j : json) (k : string) : pyres json :=
  match j with
  | JObj m => match assoc k m with Some v => Ok v | None => Raise KeyError end
  | _ => Raise TypeError
  end.

(** [j[i]] for an index [i] that is not negative. *)
Definition py_index (j : json) (i : nat) : pyres json :=
  match j with
  | JArr l =>
      match nth_error l i with
      | Some x => Ok x
      | None => Raise IndexError
      end
  | JStr s =>
      match String.get i s with
      | Some c => Ok (JStr (String c EmptyString))
      | None => Raise IndexError
      end
  | JObj _ => Raise KeyError
  | _ => Raise TypeError
  end.

(** [len(j)] *)
Definition py_len (j : json) : pyres Z :=
  match j with
  | JStr s => Ok (Z.of_nat (String.length s))
  | JArr l => Ok (Z.of_nat (List.length l))
  | JObj m => Ok (Z.of_nat (List.length m))
  | _ => Raise TypeError
  end.

(** [j.get(k, dflt)]: only a dict has the method. *)
Definition py_get (j : json) (k : string) (dflt : json) : pyres json :=
  match j with
  | JObj m => Ok (match assoc k m with Some v => v | None => dflt end)
  | _ => Raise AttributeError
  end.

(** Truth value, as [or] and [not] test it. *)
Definition truthy (j : json) : bool :=
  match j with
  | JNull => false
  | JBool b => b
  | JInt z => negb (z =? 0)%Z
  | JFloat x => negb (is_zero x)
  | JStr s => negb (String.eqb s EmptyString)
  | JArr l => match l with [] => false | _ => true end
  | JObj m => match m with [] => false | _ => true end
  end.

Definition is_none (j : json) : bool :=
  match j with
  | JNull => true
  | _ => false
  end.

(** An [int] converts to [float] unless it rounds past the largest
    binary64 value. *)
Definition float_of_int_bound : Z := (2 ^ 1024 - 2 ^ 970)%Z.

Section Float.

(** [float(s)] for a string [s]: the interpreter's parser, [None] where it
    raises [ValueError]. *)
Variable float_of_str : string -> option pyfloat.

(** The builtin [float(j)]. *)
Definition py_float (j : json) : pyres pyfloat :=
  match j with
  | JNull => Raise TypeError
  | JBool b => Ok (Fin (if b then 1 else 0))
  | JInt z =>
      if (Z.abs z <? float_of_int_bound)%Z then Ok (Fin (inject_Z z))
      else Raise OverflowError
  | JFloat x => Ok x
  | JStr s =>
      match float_of_str s with
      | Some x => Ok x
      | None => Raise ValueError
      end
  | JArr _ | JObj _ => Raise TypeError
  end.

End Float.

End Json.
Export Json.

(* ------------------------------------------------------------------ *)
(** ** Dicts keyed by hashable values

    The keys of [carbon_map] and [_carbon_cache] are whatever the handler
    received as [region].  A dict finds a key that is the same object or
    compares equal with [==]: [True], [1] and [1.0] are one key.  A [NaN]
    equals nothing under [==], but every [NaN] a body carries is the one
    object [json.loads] keeps for the literal, which the dict finds by
    identity: [NaN] is one key as well.  A dict is kept as its list of
    items. *)

Module PyDict.

Definition hashable (k : json) : bool :=
  match k with
  | JArr _ | JObj _ => false
  | _ => true
  end.

Definition key_num (k : json) : option pyfloat :=
  match k with
  | JBool b => Some (Fin (if b then 1 else 0))
  | JInt z => Some (Fin (inject_Z z))
  | JFloat x => Some x
  | _ => None
  end.

Definition key_eqb (a b : json) : bool :=
  match a, b with
  | JNull, JNull => true
  | JStr s, JStr t => String.eqb s t
  | _, _ =>
      match key_num a, key_num b with
      | Some NaN, Some NaN => true
      | Some x, Some y => feqb x y
      | _, _ => false
      end
  end.

Definition pydict (V : Type) : Type := list (json * V).

Fixpoint dict_get {V} (k : json) (d : pydict V) : option V :=
  match d with
  | [] => None
  | (k', v) :: d' => if key_eqb k' k then Some v else dict_get k d'
  end.

(** Assignment keeps the key object already in the dict. *)
Fixpoint dict_put {V} (k : json) (v : V) (d : pydict V) : pydict V :=
  match d with
  | [] => [(k, v)]
  | (k', v') :: d' =>
      if key_eqb k' k then (k', v) :: d' else (k', v') :: dict_put k v d'
  end.

(** [d[k] = v]: an unhashable key raises and leaves [d] alone. *)
Definition dict_setitem {V} (k : json) (v : V) (d : pydict V)
  : pyres (pydict V) :=
  if hashable k then Ok (dict_put k v d) else Raise TypeError.

End PyDict.
Export PyDict.

(* ------------------------------------------------------------------ *)
(** ** Computations that raise, with and without the object's state *)

Module PyMonad.

Declare Scope py_scope.
Delimit Scope py_scope with py.

(** Sequencing of steps that may raise. *)
Definition bind {A B} (c : pyres A) (k : A -> pyres B) : pyres B :=
  match c with
  | Ok a => k a
  | Raise e => Raise e
  end.

(** [try: c  except Exception: h] without state. *)
Definition catch {A} (c : pyres A) (h : A) : A :=
  match c with
  | Ok a => a
  | Raise _ => h
  end.

Section State.

Variable St : Type.

(** A method body: it reads and writes the fields [St] and returns or
    raises; the fields written before a [raise] stay written. *)
Definition M (A : Type) : Type := St -> pyres A * St.

Definition ret {A} (a : A) : M A := fun s => (Ok a, s).

Definition bindM {A B} (c : M A) (k : A -> M B) : M B :=
  fun s =>
    match c s with
    | (Ok a, s') => k a s'
    | (Raise e, s') => (Raise e, s')
    end.

Definition lift {A} (r : pyres A) : M A := fun s => (r, s).

Definition get_state : M St := fun s => (Ok s, s).

Definition put_state (s' : St) : M unit := fun _ => (Ok tt, s').

(** [try: c  except Exception: h]. *)
Definition try_except {A} (c : M A) (h : M A) : M A :=
  fun s =>
    match c s with
    | (Ok a, s') => (Ok a, s')
    | (Raise _, s') => h s'
    end.

End State.

Arguments ret {St A} a.
Arguments bindM {St A B} c k.
Arguments lift {St A} r.
Arguments get_state {St}.
Arguments put_state {St} s'.
Arguments try_except {St A} c h.

Notation "x <- c1 ;; c2" := (bind c1 (fun x => c2))
  (at level 61, c1 at next level, right associativity) : py_scope.
Notation "x <~ c1 ;; c2" := (bindM c1 (fun x => c2))
  (at level 61, c1 at next level, right associativity) : py_scope.
Notation "c1 ;;; c2" := (bindM c1 (fun _ => c2))
  (at level 61, right associativity) : py_scope.

End PyMonad.
Export PyMonad.

Local Open Scope py_scope.
Local Open Scope string_scope.

(* ------------------------------------------------------------------ *)
(** ** Configuration, state and the outside world *)

(** [cfg["carbon_providers"]["electricitymap"]]; a missing key is [None],
    a missing provider is the record of missing keys. *)
Record em_provider : Type :=
  { em_enabled : bool;
    em_api_key : option string;
    em_endpoint : option string;
    em_zone : option string }.

(** [cfg["carbon_providers"]["watttime"]]. *)
Record wt_provider : Type :=
  { wt_enabled : bool;
    wt_token : option string;
    wt_endpoint_index : option string }.

(** What [__init__] and the methods read from [cfg], defaults filled in. *)
Record config : Type :=
  { electricitymap : em_provider;
    watttime : wt_provider;
    min_replicas : Z;
    max_replicas : Z;
    slo_p95_ms : Q;
    weights_slo : Q;
    weights_carbon : Q;
    weights_cost : Q;
    cost_per_replica : Q;
    cost_norm_max : Q;
    default_carbon : Q;
    cache_ttl : Q }.

(** The two dicts the control loop and the handler share. *)
Record state : Type :=
  { carbon_map : pydict pyfloat;
    _carbon_cache : pydict (pyfloat * Q) }.

(** What one call sees of its surroundings: [time.time()], [os.getenv],
    [requests.get(endpoint, params, headers)] followed by
    [raise_for_status()] and [json()], which yields the decoded body or
    raises, the result of the Prometheus query, and the replica count of
    the deployment as the orchestration API reports it. *)
Record world : Type :=
  { now : Q;
    getenv : string -> option string;
    requests_get :
      string -> list (string * string) -> list (string * string) -> pyres json;
    custom_query : pyres json;
    read_replicas : pyres Z }.

Definition str_truthy (s : option string) : bool :=
  match s with
  | Some s => negb (String.eqb s EmptyString)
  | None => false
  end.

(** [a or b] on optional strings. *)
Definition str_or (a b : option string) : option string :=
  if str_truthy a then a else b.

Definition str_val (s : option string) : string :=
  match s with
  | Some s => s
  | None => EmptyString
  end.

Definition Qlt_bool (a b : Q) : bool := negb (Qle_bool b a).

(* ------------------------------------------------------------------ *)
(** ** The controller *)

Section CarbOnSeer.

Variable float_of_str : string -> option pyfloat.
Variable cfg : config.

(** *** Prometheus *)

(** The body of the [try] in [query_p95]: seconds to milliseconds when
    the first sample has a value, a fall through to [return None]
    otherwise. *)
Definition p95_of_result (res : json) : pyres (option pyfloat) :=
  if truthy res then
    n <- py_len res ;;
    if (n >? 0)%Z then
      first <- py_index res 0 ;;
      has_value <- py_in "value" first ;;
      if has_value then
        first <- py_index res 0 ;;
        value <- py_getitem first "value" ;;
        sample <- py_index value 1 ;;
        val <- py_float float_of_str sample ;;
        Ok (Some (fmul val (Fin 1000)))
      else Ok None
    else Ok None
  else Ok None.

Definition query_p95 (w : world) : option pyfloat :=
  catch (res <- custom_query w ;; p95_of_result res) None.

(** *** Carbon providers *)

(** The loop of [fetch_electricitymap] over the top-level keys: the value
    under the first key present, [None] when there is none. *)
Fixpoint first_key (ks : list string) (j : json) : pyres json :=
  match ks with
  | [] => Ok JNull
  | k :: ks' =>
      present <- py_in k j ;;
      if present then py_getitem j k else first_key ks' j
  end.

(** The body of the [try] in [fetch_electricitymap], from the decoded
    response on: [Ok None] when it falls through to [return None]. *)
Definition electricitymap_value (j : json) : pyres (option pyfloat) :=
  has_data <- py_in "data" j ;;
  nested <-
    (if has_data then
       d <- py_getitem j "data" ;;
       camel <- py_in "carbonIntensity" d ;;
       if camel then Ok true
       else (d' <- py_getitem j "data" ;; py_in "carbon_intensity" d')
     else Ok false) ;;
  val <-
    (if nested then
       d <- py_getitem j "data" ;;
       a <- py_get d "carbonIntensity" JNull ;;
       if truthy a then Ok a
       else (d' <- py_getitem j "data" ;; py_get d' "carbon_intensity" JNull)
     else
       first_key ["carbonIntensity"; "carbon_intensity"; "gCO2eq_per_kWh"] j) ;;
  if is_none val then Ok None
  else (x <- py_float float_of_str val ;; Ok (Some x)).

Definition fetch_electricitymap (w : world) (zone : string)
  : pyres (option pyfloat) :=
  let prov := electricitymap cfg in
  let api_key :=
    str_or (em_api_key prov) (getenv w "ELECTRICITYMAP_API_KEY") in
  let endpoint := em_endpoint prov in
  if negb (str_truthy api_key) || negb (str_truthy endpoint) then Ok None
  else
    let params := [("zone", zone)] in
    let headers := [("auth-token", str_val api_key)] in
    Ok (catch (j <- requests_get w (str_val endpoint) params headers ;;
               electricitymap_value j)
              None).

(** [return float(j[k])] *)
Definition float_at (j : json) (k : string) : pyres (option pyfloat) :=
  v <- py_getitem j k ;;
  x <- py_float float_of_str v ;;
  Ok (Some x).

(** The body of the [try] in [fetch_watttime_index], from the decoded
    response on. *)
Definition watttime_value (j : json) : pyres (option pyfloat) :=
  moer <- py_in "moer" j ;;
  if moer then float_at j "moer"
  else
    index_value <- py_in "index_value" j ;;
    if index_value then float_at j "index_value"
    else
      value <- py_in "value" j ;;
      if value then float_at j "value" else Ok None.

Definition fetch_watttime_index (w : world) (params : list (string * string))
  : pyres (option pyfloat) :=
  let prov := watttime cfg in
  let token := str_or (wt_token prov) (getenv w "WATTTIME_TOKEN") in
  let endpoint := wt_endpoint_index prov in
  if negb (str_truthy token) || negb (str_truthy endpoint) then Ok None
  else
    let headers := [("Authorization", "Token " ++ str_val token)] in
    Ok (catch (j <- requests_get w (str_val endpoint) params headers ;;
               watttime_value j)
              None).

(** *** The resolver *)

Definition set_carbon_cache (region : json) (entry : pyfloat * Q)
  : M state unit :=
  st <~ get_state ;;
  cache <~ lift (dict_setitem region entry (_carbon_cache st)) ;;
  put_state {| carbon_map := carbon_map st; _carbon_cache := cache |}.

Definition set_carbon_map (region : json) (carbon : pyfloat) : M state unit :=
  st <~ get_state ;;
  map <~ lift (dict_setitem region carbon (carbon_map st)) ;;
  put_state {| carbon_map := map; _carbon_cache := _carbon_cache st |}.

(** The part of [get_carbon] after the cache test: providers in order,
    then the configured map, then the write to the cache.  The [float] of
    line 145 has nothing to convert here, [carbon_map] and
    [default_carbon] holding floats, and both sections are mappings;
    [Raw.get_carbon_miss] below is the method on what YAML loaded. *)
Definition get_carbon_miss (w : world) (region : string) : M state pyfloat :=
  let em := electricitymap cfg in
  val <~
    (if em_enabled em then
       try_except
         (lift (fetch_electricitymap w
                  (match em_zone em with Some z => z | None => region end)))
         (ret None)
     else ret None) ;;
  val <~
    (match val with
     | None =>
         let wt := watttime cfg in
         if wt_enabled wt then
           try_except (lift (fetch_watttime_index w [])) (ret None)
         else ret None
     | Some _ => ret val
     end) ;;
  val <~
    (match val with
     | None =>
         st <~ get_state ;;
         ret (match dict_get (JStr region) (carbon_map st) with
              | Some v => v
              | None => Fin (default_carbon cfg)
              end)
     | Some v => ret v
     end) ;;
  set_carbon_cache (JStr region) (val, now w) ;;;
  ret val.

Definition get_carbon (w : world) (region : string) : M state pyfloat :=
  st <~ get_state ;;
  match dict_get (JStr region) (_carbon_cache st) with
  | Some (v, ts) =>
      if Qlt_bool (now w - ts) (cache_ttl cfg) then ret v
      else get_carbon_miss w region
  | None => get_carbon_miss w region
  end.

(** *** Scoring *)

Record ScoreResult : Type :=
  { slo : pyfloat;
    carbon : pyfloat;
    cost : pyfloat;
    combined : pyfloat;
    carbon_g : pyfloat }.

(** The first statement of [compute_scores]. *)
Definition slo_score (p95_ms : option pyfloat) : pyres pyfloat :=
  match p95_ms with
  | None => Ok (Fin (1 # 2))
  | Some p =>
      if fle p (Fin (slo_p95_ms cfg)) then Ok (Fin 1)
      else
        q <- fdiv (fsub p (Fin (slo_p95_ms cfg))) (Fin (slo_p95_ms cfg * 5)) ;;
        Ok (pymax (Fin 0) (fsub (Fin 1) q))
  end.

Definition carbon_score (carbon_val : pyfloat) : pyres pyfloat :=
  q <- fdiv carbon_val (Fin 1000) ;;
  Ok (pymax (Fin 0) (fsub (Fin 1) q)).

Definition cost_score : pyres pyfloat :=
  q <- fdiv (Fin (cost_per_replica cfg))
            (pymax (Fin (1 # 1000000)) (Fin (cost_norm_max cfg))) ;;
  Ok (fsub (Fin 1) (pymin (Fin 1) q)).

Definition compute_scores (w : world) (p95_ms : option pyfloat)
  (region : string) : M state ScoreResult :=
  slo_v <~ lift (slo_score p95_ms) ;;
  carbon_val <~ get_carbon w region ;;
  carbon_v <~ lift (carbon_score carbon_val) ;;
  cost_v <~ lift cost_score ;;
  let combined_v :=
    fadd (fadd (fmul (Fin (weights_slo cfg)) slo_v)
               (fmul (Fin (weights_carbon cfg)) carbon_v))
         (fmul (Fin (weights_cost cfg)) cost_v) in
  ret {| slo := slo_v; carbon := carbon_v; cost := cost_v;
         combined := combined_v; carbon_g := carbon_val |}.

(** *** The ingestion handler *)

(** A request as the handler reads it: [self.path], the outcome of
    [int(self.headers.get("content-length", 0))], and, for each positive
    length [n], the outcome of [json.loads(self.rfile.read(n))]. *)
Record request : Type :=
  { path : string;
    content_length : pyres Z;
    loads_body : Z -> pyres json }.

(** What the handler sends: the status line and the bytes written. *)
Record response : Type :=
  { status : Z;
    body : string }.

(** [send_response(200)] with the two bytes [ok]. *)
Definition ok_response : response := {| status := 200; body := "ok" |}.

(** [send_response(400)] and [send_response(404)], nothing written. *)
Definition bad_request : response := {| status := 400; body := EmptyString |}.
Definition not_found : response := {| status := 404; body := EmptyString |}.

(** [json.loads(raw)]: [raw] is the body when the declared length is
    positive, the literal [{}] otherwise. *)
Definition loaded_body (req : request) (length : Z) : pyres json :=
  if (length >? 0)%Z then loads_body req length else Ok (JObj []).

(** [ReqHandler.do_POST], at clock reading [t].  A raised result is an
    exception that leaves the handler.  Lines 199 to 201, which print the
    update and send the 200, go through here; [Raw.do_POST] below has
    them as a step of the [try] that may raise. *)
Definition do_POST (req : request) (t : Q) : M state response :=
  if negb (String.eqb (path req) "/update_carbon") then
    ret not_found
  else
    length <~ lift (content_length req) ;;
    try_except
      (j <~ lift (loaded_body req length) ;;
       region <~ lift (py_get j "region" (JStr "local")) ;;
       carbon_field <~ lift (py_get j "carbon" JNull) ;;
       carbon <~ lift (py_float float_of_str carbon_field) ;;
       set_carbon_map region carbon ;;;
       set_carbon_cache region (carbon, t) ;;;
       ret ok_response)
      (ret bad_request).

(** *** One iteration of [run_loop] *)

(** [self.slo_p95_ms * 0.6]: the target, a [float] or an [int] converted
    to one, times the float [0.6], as binary64 multiplies them. *)
Definition scale_down_threshold : pyfloat :=
  Binary64.value
    (Binary64.mul (Binary64.nearest (slo_p95_ms cfg)) Binary64.six_tenths).

(** The policy between reading [cur] and patching: the value of [newr]. *)
Definition new_replicas (p95 : option pyfloat) (cur : Z) : Z :=
  match p95 with
  | None => cur
  | Some p =>
      if fgt p (Fin (slo_p95_ms cfg)) && (cur <? max_replicas cfg)%Z then
        Z.min (max_replicas cfg) (cur + 1)
      else if flt p scale_down_threshold && (cur >? min_replicas cfg)%Z then
        Z.max (min_replicas cfg) (cur - 1)
      else cur
  end.

(** What an iteration did before it went to sleep. *)
Record cycle_report : Type :=
  { scores : ScoreResult;
    replicas : option (Z * Z);
    patched : option Z }.

(** The body of the [while True], given the value [query_p95] returned
    and the outcome of [get_current_replicas].  [replicas] is [cur] and
    [newr], absent when the read failed; [patched] is the argument of the
    call to [patch_replicas], absent when there was no call. *)
Definition run_cycle (w : world) (p95 : option pyfloat) (read : pyres Z)
  : M state cycle_report :=
  scores <~ compute_scores w p95 "local" ;;
  match read with
  | Raise _ => ret {| scores := scores; replicas := None; patched := None |}
  | Ok cur =>
      let newr := new_replicas p95 cur in
      ret {| scores := scores;
             replicas := Some (cur, newr);
             patched := if negb (newr =? cur)%Z then Some newr else None |}
  end.

(** The iteration as [run_loop] runs it against the world of the moment. *)
Definition run_loop_body (w : world) : M state cycle_report :=
  run_cycle w (query_p95 w) (read_replicas w).

End CarbOnSeer.

(* ------------------------------------------------------------------ *)
(** ** The resolver and the handler on unvalidated input

    [get_carbon] and [do_POST] above are the two methods for a
    configuration that has been read into numbers and records, and for a
    connection on which the handler's output goes through.  [Raw] has
    them line by line without either assumption:
    - the values of [carbon_map] and the value of [default_carbon] are
      what YAML loaded, and line 145 converts the one it picks with
      [float], outside any [try];
    - a provider section is a mapping or something else, and lines 131
      and 138 call [get] on it, outside any [try];
    - lines 199 to 201 of the handler, which print the update and send
      the 200, are inside its [try], after both dicts are written.
    [carbon_map] is a dict and [cache_ttl] a number here as above. *)

Module Raw.

(** A configuration with the sections [em] and [wt], for the bodies of
    the fetchers above: each reads its own section and nothing else, the
    other fields are the defaults of [__init__]. *)
Definition sections (em : em_provider) (wt : wt_provider) : config :=
  {| electricitymap := em;
     watttime := wt;
     min_replicas := 1;
     max_replicas := 10;
     slo_p95_ms := 200;
     weights_slo := 6 # 10;
     weights_carbon := 3 # 10;
     weights_cost := 1 # 10;
     cost_per_replica := 2 # 100;
     cost_norm_max := 1;
     default_carbon := 300;
     cache_ttl := 300 |}.

(** [cfg["carbon_providers"]["watttime"]] when the key is missing. *)
Definition no_watttime : wt_provider :=
  {| wt_enabled := false; wt_token := None; wt_endpoint_index := None |}.

Definition no_electricitymap : em_provider :=
  {| em_enabled := false; em_api_key := None; em_endpoint := None;
     em_zone := None |}.

(** What a connection adds to the request read from it: the outcome of
    lines 199 to 201, [print(...)], [send_response(200)], [end_headers()]
    and [wfile.write(b"ok")], for the region and the value they print. *)
Record connection : Type :=
  { received : request;
    acknowledge : json -> pyfloat -> pyres unit }.

(** What [get_carbon] reads of [cfg].  A section is [None] when the value
    under its key has no [get]: YAML loads an empty section as [None].  A
    missing section is the mapping of missing keys. *)
Record config : Type :=
  { electricitymap : option em_provider;
    watttime : option wt_provider;
    default_carbon : json;
    cache_ttl : Q }.

(** The two dicts, [carbon_map] with the values [cfg] came with. *)
Record state : Type :=
  { carbon_map : pydict json;
    _carbon_cache : pydict (pyfloat * Q) }.

(** [section.get(...)] *)
Definition mapping {A} (section : option A) : pyres A :=
  match section with
  | Some m => Ok m
  | None => Raise AttributeError
  end.

Section Methods.

Variable float_of_str : string -> option pyfloat.
Variable cfg : config.

Definition set_carbon_cache (region : json) (entry : pyfloat * Q)
  : M state unit :=
  st <~ get_state ;;
  cache <~ lift (dict_setitem region entry (_carbon_cache st)) ;;
  put_state {| carbon_map := carbon_map st; _carbon_cache := cache |}.

Definition set_carbon_map (region : json) (carbon : pyfloat) : M state unit :=
  st <~ get_state ;;
  map <~ lift (dict_setitem region (JFloat carbon) (carbon_map st)) ;;
  put_state {| carbon_map := map; _carbon_cache := _carbon_cache st |}.

(** [self.carbon_map.get(region, self.cfg.get("default_carbon", 300))] *)
Definition fallback (region : string) (st : state) : json :=
  match dict_get (JStr region) (carbon_map st) with
  | Some j => j
  | None => default_carbon cfg
  end.

(** The part of [get_carbon] after the cache test. *)
Definition get_carbon_miss (w : world) (region : string) : M state pyfloat :=
  em <~ lift (mapping (electricitymap cfg)) ;;
  val <~
    (if em_enabled em then
       try_except
         (lift (fetch_electricitymap float_of_str (sections em no_watttime) w
                  (match em_zone em with Some z => z | None => region end)))
         (ret None)
     else ret None) ;;
  val <~
    (match val with
     | None =>
         wt <~ lift (mapping (watttime cfg)) ;;
         if wt_enabled wt then
           try_except
             (lift (fetch_watttime_index float_of_str
                      (sections no_electricitymap wt) w []))
             (ret None)
         else ret None
     | Some _ => ret val
     end) ;;
  val <~
    (match val with
     | None =>
         st <~ get_state ;;
         lift (py_float float_of_str (fallback region st))
     | Some v => ret v
     end) ;;
  set_carbon_cache (JStr region) (val, now w) ;;;
  ret val.

Definition get_carbon (w : world) (region : string) : M state pyfloat :=
  st <~ get_state ;;
  match dict_get (JStr region) (_carbon_cache st) with
  | Some (v, ts) =>
      if Qlt_bool (now w - ts) (cache_ttl cfg) then ret v
      else get_carbon_miss w region
  | None => get_carbon_miss w region
  end.

(** [ReqHandler.do_POST] at clock reading [t].  When line 199, 200 or 201
    raises, the [except] clause sends the 400 like for any other
    exception of the [try], whatever was sent before. *)
Definition do_POST (c : connection) (t : Q) : M state response :=
  let req := received c in
  if negb (String.eqb (path req) "/update_carbon") then
    ret not_found
  else
    length <~ lift (content_length req) ;;
    try_except
      (j <~ lift (loaded_body req length) ;;
       region <~ lift (py_get j "region" (JStr "local")) ;;
       carbon_field <~ lift (py_get j "carbon" JNull) ;;
       carbon <~ lift (py_float float_of_str carbon_field) ;;
       set_carbon_map region carbon ;;;
       set_carbon_cache region (carbon, t) ;;;
       lift (acknowledge c region carbon) ;;;
       ret ok_response)
      (ret bad_request).

End Methods.

(** The state after the two writes of an update of [region] to [v] at
    time [t]. *)
Definition ingested (region : json) (v : pyfloat) (t : Q) (st : state)
  : state :=
  {| carbon_map := dict_put region (JFloat v) (carbon_map st);
     _carbon_cache := dict_put region (v, t) (_carbon_cache st) |}.

(** A connection whose output goes through. *)
Definition sound (req : request) : connection :=
  {| received := req; acknowledge := fun _ _ => Ok tt |}.

End Raw.

(** A configuration and a state read into numbers and records, as [cfg]
    and the two dicts hold them. *)
Definition raw_config (cfg : config) : Raw.config :=
  {| Raw.electricitymap := Some (electricitymap cfg);
     Raw.watttime := Some (watttime cfg);
     Raw.default_carbon := JFloat (Fin (default_carbon cfg));
     Raw.cache_ttl := cache_ttl cfg |}.

Definition raw_state (st : state) : Raw.state :=
  {| Raw.carbon_map := map (fun kv => (fst kv, JFloat (snd kv))) (carbon_map st);
     Raw._carbon_cache := _carbon_cache st |}.

(* ------------------------------------------------------------------ *)
(** ** The vocabulary of the statements

    Reference definitions in the words of the specification, and names
    for what the statements below talk about. *)

(** The linear degradation of the SLO score above the target. *)
Definition ramp (target l : Q) : Q := 1 - (l - target) / (target * 5).

(** The SLO score of a finite latency against a target. *)
Definition slo_score_spec (target : Q) (latency : option Q) : Q :=
  match latency with
  | None => 1 # 2
  | Some l => if Qle_bool l target then 1 else Qmax 0 (ramp target l)
  end.

(** What one provider contributes: nothing when it is disabled, when its
    fetch failed or when it found no value.  A provider is its enabled
    flag and what its fetch returned. *)
Definition provider_value (provider : bool * pyres (option pyfloat))
  : option pyfloat :=
  let (enabled, fetched) := provider in
  if enabled then catch fetched None else None.

(** The first value an ordered list of providers yields. *)
Fixpoint first_value (providers : list (bool * pyres (option pyfloat)))
  : option pyfloat :=
  match providers with
  | [] => None
  | provider :: rest =>
      match provider_value provider with
      | Some v => Some v
      | None => first_value rest
      end
  end.

(** Provider chain, then the static table, then the global default. *)
Definition resolve_spec (providers : list (bool * pyres (option pyfloat)))
  (table : pydict pyfloat) (default : Q) (region : string) : pyfloat :=
  match first_value providers with
  | Some v => v
  | None =>
      match dict_get (JStr region) table with
      | Some v => v
      | None => Fin default
      end
  end.

(** The decision policy as three guarded cases. *)
Definition scale_up (cfg : config) (p95 : option pyfloat) (cur : Z) : Prop :=
  exists p, p95 = Some p /\ fgt p (Fin (slo_p95_ms cfg)) = true
            /\ (cur < max_replicas cfg)%Z.

Definition scale_down (cfg : config) (p95 : option pyfloat) (cur : Z) : Prop :=
  exists p, p95 = Some p /\ flt p (scale_down_threshold cfg) = true
            /\ (cur > min_replicas cfg)%Z.

(** What the handler needs of a decoded body to accept it: a dict whose
    [carbon] converts with [float] and whose [region], ["local"] when the
    key is missing, can be a dict key. *)
Definition accepted (float_of_str : string -> option pyfloat)
  (loaded : pyres json) : option (json * pyfloat) :=
  match loaded with
  | Ok (JObj m) =>
      let region :=
        match assoc "region" m with Some r => r | None => JStr "local" end in
      match assoc "carbon" m with
      | Some c =>
          match py_float float_of_str c with
          | Ok v => if hashable region then Some (region, v) else None
          | Raise _ => None
          end
      | None => None
      end
  | _ => None
  end.


Definition in_unit (x : pyfloat) : bool :=
  fle (Fin 0) x && fle x (Fin 1).

(** The deployment's replica count over a run of iterations in which
    nothing but the controller changes it: each entry is the latency read
    in that iteration and whether its patch, if any, went through. *)
Fixpoint replicas_after (cfg : config)
  (iterations : list (option pyfloat * bool)) (cur : Z) : Z :=
  match iterations with
  | [] => cur
  | (p95, patch_ok) :: rest =>
      let newr := new_replicas cfg p95 cur in
      replicas_after cfg rest (if patch_ok then newr else cur)
  end.

(** The two providers of [get_carbon], each with its enabled flag and
    the outcome of its fetch. *)
Definition electricitymap_provider (float_of_str : string -> option pyfloat)
  (cfg : config) (w : world) (region : string)
  : bool * pyres (option pyfloat) :=
  (em_enabled (electricitymap cfg),
   fetch_electricitymap float_of_str cfg w
     (match em_zone (electricitymap cfg) with
      | Some z => z
      | None => region
      end)).

Definition watttime_provider (float_of_str : string -> option pyfloat)
  (cfg : config) (w : world) : bool * pyres (option pyfloat) :=
  (wt_enabled (watttime cfg), fetch_watttime_index float_of_str cfg w []).

(** The provider chain of [get_carbon], in the order it tries them. *)
Definition provider_chain (float_of_str : string -> option pyfloat)
  (cfg : config) (w : world) (region : string)
  : list (bool * pyres (option pyfloat)) :=
  [ electricitymap_provider float_of_str cfg w region;
    watttime_provider float_of_str cfg w ].

(** The cache has nothing usable for [region] at the time of [w]: no
    entry, or one whose age has reached the TTL. *)
Definition cache_stale (cfg : config) (w : world) (region : string)
  (st : state) : Prop :=
  match dict_get (JStr region) (_carbon_cache st) with
  | Some (_, ts) => cache_ttl cfg <= now w - ts
  | None => True
  end.

(** The state after an accepted update of [region] to [v] at time [t]. *)
Definition ingested (region : json) (v : pyfloat) (t : Q) (st : state)
  : state :=
  {| carbon_map := dict_put region v (carbon_map st);
     _carbon_cache := dict_put region (v, t) (_carbon_cache st) |}.

(* ------------------------------------------------------------------ *)
(** ** Example data *)

Module Examples.

Definition provider_off : em_provider :=
  {| em_enabled := false; em_api_key := None; em_endpoint := None;
     em_zone := None |}.

Definition watttime_off : wt_provider :=
  {| wt_enabled := false; wt_token := None; wt_endpoint_index := None |}.

(** The defaults [__init__] and the methods fall back on. *)
Definition default_config : config :=
  {| electricitymap := provider_off;
     watttime := watttime_off;
     min_replicas := 1;
     max_replicas := 10;
     slo_p95_ms := 200;
     weights_slo := 6 # 10;
     weights_carbon := 3 # 10;
     weights_cost := 1 # 10;
     cost_per_replica := 2 # 100;
     cost_norm_max := 1;
     default_carbon := 300;
     cache_ttl := 300 |}.

Definition empty_state : state :=
  {| carbon_map := []; _carbon_cache := [] |}.

(** A world in which every request fails. *)
Definition offline (t : Q) : world :=
  {| now := t;
     getenv := fun _ => None;
     requests_get := fun _ _ _ => Raise RequestException;
     custom_query := Raise RequestException;
     read_replicas := Raise RequestException |}.

(** A parser that knows no string; the examples convert none. *)
Definition no_strings : string -> option pyfloat := fun _ => None.

Definition post (j : json) : request :=
  {| path := "/update_carbon";
     content_length := Ok 1%Z;
     loads_body := fun _ => Ok j |}.

(** A configuration with other replica bounds, weights or providers. *)
Definition with_replicas (lo hi : Z) (c : config) : config :=
  {| electricitymap := electricitymap c;
     watttime := watttime c;
     min_replicas := lo;
     max_replicas := hi;
     slo_p95_ms := slo_p95_ms c;
     weights_slo := weights_slo c;
     weights_carbon := weights_carbon c;
     weights_cost := weights_cost c;
     cost_per_replica := cost_per_replica c;
     cost_norm_max := cost_norm_max c;
     default_carbon := default_carbon c;
     cache_ttl := cache_ttl c |}.

Definition with_weights (w_slo w_carbon w_cost : Q) (c : config) : config :=
  {| electricitymap := electricitymap c;
     watttime := watttime c;
     min_replicas := min_replicas c;
     max_replicas := max_replicas c;
     slo_p95_ms := slo_p95_ms c;
     weights_slo := w_slo;
     weights_carbon := w_carbon;
     weights_cost := w_cost;
     cost_per_replica := cost_per_replica c;
     cost_norm_max := cost_norm_max c;
     default_carbon := default_carbon c;
     cache_ttl := cache_ttl c |}.

Definition with_providers (em : em_provider) (wt : wt_provider) (c : config)
  : config :=
  {| electricitymap := em;
     watttime := wt;
     min_replicas := min_replicas c;
     max_replicas := max_replicas c;
     slo_p95_ms := slo_p95_ms c;
     weights_slo := weights_slo c;
     weights_carbon := weights_carbon c;
     weights_cost := weights_cost c;
     cost_per_replica := cost_per_replica c;
     cost_norm_max := cost_norm_max c;
     default_carbon := default_carbon c;
     cache_ttl := cache_ttl c |}.

(** The defaults between two and five replicas. *)
Definition tight_config : config := with_replicas 2 5 default_config.

(** Target 200 ms, between one and five replicas. *)
Definition scenario_config : config := with_replicas 1 5 default_config.

(** The defaults, with every weight set to one. *)
Definition unit_weights : config := with_weights 1 1 1 default_config.

Definition provider_on : em_provider :=
  {| em_enabled := true; em_api_key := Some "key";
     em_endpoint := Some "https://electricitymap.example/latest";
     em_zone := None |}.

Definition watttime_on : wt_provider :=
  {| wt_enabled := true; wt_token := Some "token";
     wt_endpoint_index := Some "https://watttime.example/index" |}.

(** The defaults, with both providers switched on. *)
Definition metered_config : config :=
  with_providers provider_on watttime_on default_config.

(** The defaults, with watttime alone switched on. *)
Definition watttime_only : config :=
  with_providers provider_off watttime_on default_config.

(** A world in which electricitymap answers 300 and watttime 250,
    Prometheus reports a quarter of a second and the deployment runs
    three replicas. *)
Definition online (t : Q) : world :=
  {| now := t;
     getenv := fun _ => None;
     requests_get := fun endpoint _ _ =>
       if String.eqb endpoint "https://electricitymap.example/latest"
       then Ok (JObj [("data", JObj [("carbonIntensity", JInt 300)])])
       else Ok (JObj [("moer", JInt 250)]);
     custom_query :=
       Ok (JArr [JObj [("metric", JObj []);
                       ("value", JArr [JInt 0; JFloat (Fin (25 # 100))])]]);
     read_replicas := Ok 3%Z |}.

(** A configured and a cached value for ["eu"], both 420. *)
Definition configured_eu : state :=
  {| carbon_map := [(JStr "eu", Fin 420)];
     _carbon_cache := [(JStr "eu", (Fin 420, 0))] |}.

(** A configured value for ["eu"] and an older cached one. *)
Definition expired_entry : state :=
  {| carbon_map := [(JStr "eu", Fin 420)];
     _carbon_cache := [(JStr "eu", (Fin 50, 0))] |}.

Definition eu_50 : json := JObj [("region", JStr "eu"); ("carbon", JInt 50)].

Definition carbon_only : json := JObj [("carbon", JInt 50)].


(** The state after [{"carbon": -100}] was posted to a fresh controller. *)
Definition negative_reading : state :=
  snd (do_POST no_strings (post (JObj [("carbon", JInt (-100))])) 0
         empty_state).

End Examples.

Import Examples.

(* ------------------------------------------------------------------ *)
(** ** The replayer: [replayer/replayer.py] *)

Module Replayer.

(** A row as [csv.DictReader] yields it: one entry per column of the
    header, [None] where the line was too short to have the field. *)
Definition csv_row : Type := list (string * option string).

Fixpoint row_get (k : string) (row : csv_row) : option (option string) :=
  match row with
  | [] => None
  | (k', v) :: row' => if String.eqb k' k then Some v else row_get k row'
  end.

Definition json_of_field (v : option string) : json :=
  match v with
  | Some s => JStr s
  | None => JNull
  end.

Section Replay.

Variable float_of_str : string -> option pyfloat.

(** The payload the body of the [for] builds for one row; building it
    raises when [float(carbon)] does. *)
Definition row_payload (row : csv_row) : pyres json :=
  let region :=
    match row_get "region" row with
    | Some v => json_of_field v
    | None => JStr "local"
    end in
  let carbon :=
    match row_get "carbon" row with
    | Some v => json_of_field v
    | None => JNull
    end in
  let ts :=
    match row_get "timestamp" row with
    | Some v => json_of_field v
    | None => JStr EmptyString
    end in
  x <- py_float float_of_str carbon ;;
  Ok (JObj [("region", region); ("carbon", JFloat x); ("timestamp", ts)]).

(** The [for] of [replay_once]: the payloads handed to [requests.post],
    in order.  Whatever building or posting a payload raises is caught
    and the loop goes on with the next row. *)
Fixpoint replay_rows (rows : list csv_row) : list json :=
  match rows with
  | [] => []
  | row :: rows' =>
      match row_payload row with
      | Ok payload => payload :: replay_rows rows'
      | Raise _ => replay_rows rows'
      end
  end.

(** [replay_once], given the rows of the trace file, or [None] when the
    file does not exist. *)
Definition replay_once (file : option (list csv_row)) : list json :=
  match file with
  | None => []
  | Some rows => replay_rows rows
  end.

End Replay.

End Replayer.
Import Replayer.

(* ------------------------------------------------------------------ *)
(** ** Further vocabulary and example data *)

(** The number under the first of the candidate keys the object has; no
    number when it has none of them or when the value there does not
    convert. *)
Fixpoint first_present (float_of_str : string -> option pyfloat)
  (ks : list string) (m : list (string * json)) : option pyfloat :=
  match ks with
  | [] => None
  | k :: ks' =>
      match assoc k m with
      | Some v => catch (x <- py_float float_of_str v ;; Ok (Some x)) None
      | None => first_present float_of_str ks' m
      end
  end.

Definition is_object (j : json) : bool :=
  match j with
  | JObj _ => true
  | _ => false
  end.

(** What [requests.post(json=...)] can encode of a flat payload: it
    refuses a float that is not finite, and the replayer's [except]
    catches the refusal. *)
Definition encodable (payload : json) : bool :=
  match payload with
  | JObj m =>
      forallb (fun field =>
                 match snd field with
                 | JFloat (Fin _) => true
                 | JFloat _ => false
                 | _ => true
                 end) m
  | _ => true
  end.

Module Scenarios.

(** A configuration with another latency target. *)
Definition with_target (target : Q) (c : config) : config :=
  {| electricitymap := electricitymap c;
     watttime := watttime c;
     min_replicas := min_replicas c;
     max_replicas := max_replicas c;
     slo_p95_ms := target;
     weights_slo := weights_slo c;
     weights_carbon := weights_carbon c;
     weights_cost := weights_cost c;
     cost_per_replica := cost_per_replica c;
     cost_norm_max := cost_norm_max c;
     default_carbon := default_carbon c;
     cache_ttl := cache_ttl c |}.

(** A world without Prometheus in which the deployment runs three
    replicas. *)
Definition blind (t : Q) : world :=
  {| now := t;
     getenv := fun _ => None;
     requests_get := fun _ _ _ => Raise RequestException;
     custom_query := Raise RequestException;
     read_replicas := Ok 3%Z |}.

(** A parser that knows the one string [NaN]. *)
Definition nan_only (s : string) : option pyfloat :=
  if String.eqb s "NaN" then Some NaN else None.

(** A world in which Prometheus has no sample to take the quantile of
    and answers [NaN]. *)
Definition empty_histogram (t : Q) : world :=
  {| now := t;
     getenv := fun _ => None;
     requests_get := fun _ _ _ => Raise RequestException;
     custom_query :=
       Ok (JArr [JObj [("metric", JObj []);
                       ("value", JArr [JInt 0; JStr "NaN"])]]);
     read_replicas := Ok 3%Z |}.

(** A world whose providers answer every request with [j]. *)
Definition answering (j : json) (t : Q) : world :=
  {| now := t;
     getenv := fun _ => None;
     requests_get := fun _ _ _ => Ok j;
     custom_query := Raise RequestException;
     read_replicas := Ok 3%Z |}.

(** A request for a path with an empty body. *)
Definition bare (p : string) : request :=
  {| path := p;
     content_length := Ok 0%Z;
     loads_body := fun _ => Raise ValueError |}.

(** A parser that knows the one reading of the example trace. *)
Definition trace_reading (s : string) : option pyfloat :=
  if String.eqb s "432.5" then Some (Fin (865 # 2)) else None.

Definition trace_row : csv_row :=
  [("timestamp", Some "2024-01-01T00:00:00Z"); ("region", Some "eu");
   ("carbon", Some "432.5")].

Definition short_row : csv_row :=
  [("timestamp", Some "2024-01-01T00:05:00Z"); ("region", Some "eu");
   ("carbon", None)].

(** [carbon_map] as YAML loads [eu:] without a value, and with a word
    for one. *)
Definition null_entry : Raw.state :=
  {| Raw.carbon_map := [(JStr "eu", JNull)]; Raw._carbon_cache := [] |}.

Definition text_entry : Raw.state :=
  {| Raw.carbon_map := [(JStr "eu", JStr "high")]; Raw._carbon_cache := [] |}.

(** [carbon_map] as YAML loads [eu: 420], with a cached value from time
    zero. *)
Definition loaded_eu : Raw.state :=
  {| Raw.carbon_map := [(JStr "eu", JInt 420)];
     Raw._carbon_cache := [(JStr "eu", (Fin 50, 0))] |}.

(** Both providers switched on and the default as YAML loads [300]. *)
Definition loaded_config : Raw.config :=
  {| Raw.electricitymap := Some provider_on;
     Raw.watttime := Some watttime_on;
     Raw.default_carbon := JInt 300;
     Raw.cache_ttl := 300 |}.

(** A configuration with [electricitymap:] left empty. *)
Definition empty_section : Raw.config :=
  {| Raw.electricitymap := None;
     Raw.watttime := Some watttime_off;
     Raw.default_carbon := JInt 300;
     Raw.cache_ttl := 300 |}.




End Scenarios.
Import Scenarios.

(* ------------------------------------------------------------------ *)
(** ** Facts about floats *)

Section FloatFacts.

Lemma fle_Fin (x y : Q) : fle (Fin x) (Fin y) = true <-> x <= y.
Proof. apply Qle_bool_iff. Qed.

Lemma fle_Fin_false (x y : Q) : fle (Fin x) (Fin y) = false <-> y < x.
Proof.
  simpl. split; intro H.
  - apply Qnot_le_lt. intro Hle. apply Qle_bool_iff in Hle. congruence.
  - destruct (Qle_bool x y) eqn:E; [|reflexivity].
    apply Qle_bool_iff in E. exfalso. apply (Qlt_not_le _ _ H E).
Qed.

Lemma flt_Fin (x y : Q) : flt (Fin x) (Fin y) = true <-> x < y.
Proof.
  simpl. rewrite negb_true_iff. apply (fle_Fin_false y x).
Qed.

Lemma flt_Fin_false (x y : Q) : flt (Fin x) (Fin y) = false <-> y <= x.
Proof.
  simpl. rewrite negb_false_iff. apply Qle_bool_iff.
Qed.

(** Nothing is above [inf], and [NaN] is below nothing. *)
Lemma flt_PInf_l (x : pyfloat) : flt PInf x = false.
Proof. now destruct x. Qed.

Lemma flt_NaN_l (x : pyfloat) : flt NaN x = false.
Proof. reflexivity. Qed.

Lemma is_zero_Fin_false (q : Q) : ~ q == 0 -> is_zero (Fin q) = false.
Proof.
  intro H. simpl. destruct (Qeq_bool q 0) eqn:E; [|reflexivity].
  apply Qeq_bool_iff in E. contradiction.
Qed.

Lemma fdiv_Fin (a : pyfloat) (q : Q) :
  ~ q == 0 -> fdiv a (Fin q) = Ok (fquot a (Fin q)).
Proof.
  intro H. unfold fdiv. now rewrite is_zero_Fin_false.
Qed.

Lemma qsign_pos (q : Q) : 0 < q -> qsign q = Gt.
Proof.
  intro H. unfold qsign. apply Qgt_alt. exact H.
Qed.

(** [max(0.0, x)] is never below zero, whatever [x] is. *)
Lemma pymax_zero_lower (x : pyfloat) : fle (Fin 0) (pymax (Fin 0) x) = true.
Proof.
  unfold pymax, fgt. destruct (flt (Fin 0) x) eqn:E.
  - destruct x; try discriminate; [|reflexivity].
    apply flt_Fin in E. apply fle_Fin. lra.
  - reflexivity.
Qed.

Lemma pymax_zero_Fin (q : Q) :
  exists s, pymax (Fin 0) (Fin q) = Fin s /\ s == Qmax 0 q.
Proof.
  unfold pymax, fgt. destruct (flt (Fin 0) (Fin q)) eqn:E.
  - apply flt_Fin in E. exists q. split; [reflexivity|].
    symmetry. apply Q.max_r. lra.
  - apply flt_Fin_false in E. exists 0. split; [reflexivity|].
    symmetry. apply Q.max_l. exact E.
Qed.

End FloatFacts.

(* ------------------------------------------------------------------ *)
(** ** Binary64 rounding *)

Section Binary64Facts.

Import SpecFloat.

Local Open Scope Z_scope.

(** A number of [d] binary digits lies between [2 ^ (d - 1)] and [2 ^ d]. *)
Lemma digits2_pos_bounds (p : positive) :
  2 ^ (Zpos (digits2_pos p) - 1) <= Zpos p < 2 ^ Zpos (digits2_pos p).
Proof.
  induction p as [p IH|p IH|]; cbn [digits2_pos].
  - rewrite Pos2Z.inj_succ. change (Zpos p~1) with (2 * Zpos p + 1).
    replace (Z.succ (Zpos (digits2_pos p)) - 1)
      with (Z.succ (Zpos (digits2_pos p) - 1)) by lia.
    rewrite !Z.pow_succ_r by lia.
    set (a := 2 ^ (Zpos (digits2_pos p) - 1)) in *.
    set (b := 2 ^ Zpos (digits2_pos p)) in *. clearbody a b. lia.
  - rewrite Pos2Z.inj_succ. change (Zpos p~0) with (2 * Zpos p).
    replace (Z.succ (Zpos (digits2_pos p)) - 1)
      with (Z.succ (Zpos (digits2_pos p) - 1)) by lia.
    rewrite !Z.pow_succ_r by lia.
    set (a := 2 ^ (Zpos (digits2_pos p) - 1)) in *.
    set (b := 2 ^ Zpos (digits2_pos p)) in *. clearbody a b. lia.
  - cbn. lia.
Qed.

Lemma digits2_upper (p : positive) (k : Z) :
  Zpos p < 2 ^ k -> Zdigits2 (Zpos p) <= k.
Proof.
  intro H. cbn [Zdigits2].
  destruct (digits2_pos_bounds p) as [Hl _].
  destruct (Z_le_gt_dec (Zpos (digits2_pos p)) k) as [|Hgt]; [assumption|].
  exfalso.
  assert (2 ^ k <= 2 ^ (Zpos (digits2_pos p) - 1))
    by (apply Z.pow_le_mono_r; lia).
  lia.
Qed.

Lemma shr_1_m (mrs : shr_record) :
  0 <= shr_m mrs -> shr_m (shr_1 mrs) = shr_m mrs / 2.
Proof.
  destruct mrs as [m r s]. cbn [shr_m]. intro H.
  destruct m as [|p|p]; [reflexivity| |lia].
  destruct p as [p|p|]; cbn [shr_1 shr_m].
  - change (Zpos p~1) with (2 * Zpos p + 1).
    apply (Z.div_unique _ 2 _ 1); lia.
  - change (Zpos p~0) with (2 * Zpos p).
    apply (Z.div_unique _ 2 _ 0); lia.
  - reflexivity.
Qed.

Lemma iter_shr_1_m (n : positive) :
  forall mrs, 0 <= shr_m mrs ->
    shr_m (iter_pos shr_1 n mrs) = shr_m mrs / 2 ^ Zpos n.
Proof.
  induction n as [n IH|n IH|]; intros mrs H; cbn [iter_pos].
  - assert (H1 : 0 <= shr_m (shr_1 mrs))
      by (rewrite shr_1_m by assumption; apply Z.div_pos; lia).
    assert (H2 : 0 <= shr_m (iter_pos shr_1 n (shr_1 mrs)))
      by (rewrite IH by assumption; apply Z.div_pos; lia).
    rewrite IH, IH, shr_1_m by assumption.
    assert (Hp : 0 < 2 ^ Zpos n) by (apply Z.pow_pos_nonneg; lia).
    rewrite !Z.div_div by lia. f_equal.
    change (Zpos n~1) with (2 * Zpos n + 1).
    replace (2 * Zpos n + 1) with (1 + Zpos n + Zpos n) by lia.
    rewrite !Z.pow_add_r by lia. cbn [Z.pow Z.pow_pos Pos.iter]. lia.
  - assert (H2 : 0 <= shr_m (iter_pos shr_1 n mrs))
      by (rewrite IH by assumption; apply Z.div_pos; lia).
    rewrite IH, IH by assumption.
    assert (Hp : 0 < 2 ^ Zpos n) by (apply Z.pow_pos_nonneg; lia).
    rewrite !Z.div_div by lia. f_equal.
    change (Zpos n~0) with (2 * Zpos n).
    replace (2 * Zpos n) with (Zpos n + Zpos n) by lia.
    now rewrite !Z.pow_add_r by lia.
  - now apply shr_1_m.
Qed.

Lemma round_nearest_even_bounds (m : Z) (l : location) :
  m <= round_nearest_even m l <= m + 1.
Proof.
  destruct l as [|[| |]]; cbn [round_nearest_even];
    try destruct (Z.even m); lia.
Qed.

(** The mantissa and exponent [shr_fexp] leaves: the quotient by the
    power of two that brings the exponent up to [fexp], or the number
    itself when it is there already. *)
Lemma shr_fexp_m (m e : Z) (l : location) :
  0 <= m ->
  let e' := fexp 53 1024 (Zdigits2 m + e) in
  let r := shr_fexp 53 1024 m e l in
  (e' <= e /\ shr_m (fst r) = m /\ snd r = e
   /\ loc_of_shr_record (fst r) = l)
  \/ (e < e' /\ shr_m (fst r) = m / 2 ^ (e' - e) /\ snd r = e').
Proof.
  intros Hm e' r. subst r. unfold shr_fexp, shr. fold e'.
  destruct (e' - e) as [|p|p] eqn:E.
  - left. cbn [fst snd]. repeat split; try lia;
      destruct l as [|[| |]]; reflexivity.
  - right. cbn [fst snd]. split; [lia|]. split; [|lia].
    rewrite iter_shr_1_m; destruct l as [|[| |]]; cbn [shr_record_of_loc shr_m];
      auto.
  - left. cbn [fst snd]. repeat split; try lia;
      destruct l as [|[| |]]; reflexivity.
Qed.

(** The product of a float that is not negative with [0.6] does not
    exceed it: rounding to nearest cannot pass the float itself. *)
Lemma product_below (m : positive) (e : Z) :
  bounded 53 1024 m e = true ->
  match SFmul 53 1024 (S754_finite false m e) Binary64.six_tenths with
  | S754_zero _ => True
  | S754_finite false m' e' =>
      exists k k' : Z,
        0 <= k /\ 0 <= k' /\ e' - k' = e - k
        /\ Zpos m' * 2 ^ k' <= Zpos m * 2 ^ k
  | _ => False
  end.
Proof.
  intro Hb. unfold bounded, canonical_mantissa in Hb.
  apply andb_true_iff in Hb as [Hc He].
  apply Z.eqb_eq in Hc. apply Z.leb_le in He.
  unfold Binary64.six_tenths. cbn [SFmul xorb]. unfold binary_round_aux.
  set (mc := 5404319552844595%positive).
  set (M := Zpos (m * mc)). set (E := e + -53).
  set (d := Zpos (digits2_pos m)) in *.
  assert (Hd : Zpos m < 2 ^ d) by apply digits2_pos_bounds.
  assert (Hd0 : 0 < d) by (subst d; lia).
  assert (HM : M < Zpos m * 2 ^ 53).
  { subst M. rewrite Pos2Z.inj_mul.
    apply Z.mul_lt_mono_pos_l; [lia|]. subst mc. reflexivity. }
  assert (HdM : Zdigits2 M <= d + 53).
  { apply digits2_upper. rewrite Z.pow_add_r by lia.
    assert (0 < 2 ^ 53) by reflexivity.
    apply Z.lt_trans with (1 := HM). apply Z.mul_lt_mono_pos_r; assumption. }
  assert (HM0 : 0 <= M) by (subst M; lia).
  pose proof (shr_fexp_m M E loc_Exact HM0) as H1. cbv zeta in H1.
  destruct (shr_fexp 53 1024 M E loc_Exact) as [mrs1 e1].
  cbn [fst snd] in H1.
  set (m1 := round_nearest_even (shr_m mrs1) (loc_of_shr_record mrs1)).
  pose proof (round_nearest_even_bounds (shr_m mrs1) (loc_of_shr_record mrs1))
    as Hr. fold m1 in Hr.
  unfold fexp, emin in Hc, H1.
  (* the first shift *)
  assert (Hk : e1 <= e /\ -1074 <= e1 /\ 0 <= m1 <= Zpos m * 2 ^ (e - e1)).
  { destruct H1 as [(Hle & Hm & -> & Hl)|(Hlt & Hm & ->)].
    - subst m1. rewrite Hl, Hm. cbn [round_nearest_even].
      subst E. split; [lia|]. split; [lia|]. split; [lia|].
      replace (e - (e + -53)) with 53 by lia. lia.
    - split; [lia|]. split; [lia|].
      set (e1 := Z.max (Zdigits2 M + E - 53) (3 - 1024 - 53)) in *.
      assert (Hj : 0 < 2 ^ (e1 - E)) by (apply Z.pow_pos_nonneg; lia).
      assert (Hq : shr_m mrs1 < Zpos m * 2 ^ (e - e1)).
      { rewrite Hm. apply Z.div_lt_upper_bound; [exact Hj|].
        rewrite Z.mul_comm, <- Z.mul_assoc, <- Z.pow_add_r by (subst E; lia).
        replace (e - e1 + (e1 - E)) with 53 by (subst E; lia).
        exact HM. }
      assert (0 <= shr_m mrs1) by (rewrite Hm; apply Z.div_pos; lia).
      lia. }
  destruct Hk as (Hk1 & Hk2 & Hk3 & Hk4).
  clear H1 Hr.
  (* the second shift *)
  pose proof (shr_fexp_m m1 e1 loc_Exact Hk3) as H2. cbv zeta in H2.
  destruct (shr_fexp 53 1024 m1 e1 loc_Exact) as [mrs2 e2].
  cbn [fst snd] in H2. unfold fexp, emin in H2.
  assert (Hpow : 0 < 2 ^ (e - e1)) by (apply Z.pow_pos_nonneg; lia).
  assert (H2' : e1 <= e2 <= e /\ 0 <= shr_m mrs2
                /\ shr_m mrs2 * 2 ^ (e2 - e1) <= m1).
  { destruct H2 as [(Hle & Hm & -> & Hl)|(Hlt & Hm & ->)].
    - rewrite Hm. replace (e1 - e1) with 0 by lia.
      rewrite Z.pow_0_r. lia.
    - set (e2 := Z.max (Zdigits2 m1 + e1 - 53) (3 - 1024 - 53)) in *.
      assert (Hj : 0 < 2 ^ (e2 - e1)) by (apply Z.pow_pos_nonneg; lia).
      assert (Hdig : Zdigits2 m1 <= d + (e - e1)).
      { destruct m1 as [|p1|p1] eqn:Em1; [cbn [Zdigits2]; lia| |lia].
        apply digits2_upper. rewrite Z.pow_add_r by lia.
        apply Z.le_lt_trans with (1 := Hk4).
        apply Z.mul_lt_mono_pos_r; assumption. }
      split; [subst e2; lia|].
      rewrite Hm. split; [apply Z.div_pos; lia|].
      rewrite Z.mul_comm. apply Z.mul_div_le. exact Hj. }
  destruct H2' as ((Hl1 & Hl2) & Hs0 & Hs).
  destruct (shr_m mrs2) as [|m'|m'] eqn:Em2; [exact I| |lia].
  assert (Ele : (e2 <=? 1024 - 53) = true) by (apply Z.leb_le; lia).
  rewrite Ele.
  exists (e - e1), (e2 - e1). split; [lia|]. split; [lia|]. split; [lia|].
  lia.
Qed.

Local Close Scope Z_scope.

Lemma scaled_value (a : positive) (e k : Z) :
  (0 <= k)%Z ->
  inject_Z (Zpos a) * 2 ^ e == inject_Z (Zpos a * 2 ^ k) * 2 ^ (e - k).
Proof.
  intro Hk. replace e with ((e - k) + k)%Z at 1 by lia.
  rewrite Qpower_plus by discriminate.
  rewrite inject_Z_mult, (Zpower_Qpower 2 k Hk).
  change (inject_Z 2) with 2. ring.
Qed.

Lemma scaled_le (a b : positive) (ea eb k k' : Z) :
  (0 <= k)%Z -> (0 <= k')%Z -> (ea - k' = eb - k)%Z ->
  (Zpos a * 2 ^ k' <= Zpos b * 2 ^ k)%Z ->
  inject_Z (Zpos a) * 2 ^ ea <= inject_Z (Zpos b) * 2 ^ eb.
Proof.
  intros Hk Hk' He Hle.
  rewrite (scaled_value a ea k' Hk'), (scaled_value b eb k Hk), He.
  apply Qmult_le_compat_r; [now rewrite <- Zle_Qle|].
  apply Qlt_le_weak, Qpower_0_lt. reflexivity.
Qed.

(** The scale-down threshold of a target that is a binary64 number and
    not negative is not above the target. *)
Lemma product_below_target (t : Q) :
  0 <= t -> Binary64.exact t = true ->
  fle (Binary64.value
         (Binary64.mul (Binary64.nearest t) Binary64.six_tenths))
      (Fin t) = true.
Proof.
  intros Ht Hx. unfold Binary64.exact in Hx.
  apply andb_true_iff in Hx as [Hv Hq].
  destruct (Binary64.nearest t) as [s|[|]| |s m e]; try discriminate.
  - apply fle_Fin. exact Ht.
  - cbn [valid_binary] in Hv. cbn [Binary64.value feqb] in Hq.
    apply Qeq_bool_iff in Hq.
    assert (Hpos : 0 < inject_Z (Zpos m) * 2 ^ e).
    { apply Qmult_lt_0_compat; [reflexivity|]. apply Qpower_0_lt. reflexivity. }
    destruct s; [exfalso; lra|].
    pose proof (product_below m e Hv) as Hp. unfold Binary64.mul.
    destruct (SFmul _ _ _ _) as [s'|s'| |s' m' e']; try contradiction.
    + apply fle_Fin. exact Ht.
    + destruct s'; [contradiction|].
      destruct Hp as (k & k' & Hk & Hk' & He & Hle).
      cbn [Binary64.value]. apply fle_Fin. rewrite <- Hq.
      now apply (scaled_le m' m e' e k k').
Qed.

End Binary64Facts.

(* ------------------------------------------------------------------ *)
(** ** The SLO score *)

Section SloFacts.

Variable cfg : config.
Hypothesis target_pos : 0 < slo_p95_ms cfg.

Lemma ramp_facts :
  0 < / (slo_p95_ms cfg * 5)
  /\ (slo_p95_ms cfg * 5) * / (slo_p95_ms cfg * 5) == 1.
Proof.
  split.
  - apply Qinv_lt_0_compat. lra.
  - apply Qmult_inv_r. lra.
Qed.

Ltac ramp_arith :=
  destruct ramp_facts as [Hc H1]; unfold ramp, Qdiv;
  set (c := / (slo_p95_ms cfg * 5)) in *; nra.

Lemma ramp_lt_1 (l : Q) : slo_p95_ms cfg < l -> ramp (slo_p95_ms cfg) l < 1.
Proof. intro H. ramp_arith. Qed.

Lemma ramp_antitone (l1 l2 : Q) :
  l1 <= l2 -> ramp (slo_p95_ms cfg) l2 <= ramp (slo_p95_ms cfg) l1.
Proof. intro H. ramp_arith. Qed.

Lemma ramp_nonpos (l : Q) :
  slo_p95_ms cfg * 6 <= l -> ramp (slo_p95_ms cfg) l <= 0.
Proof. intro H. ramp_arith. Qed.

Lemma slo_score_below (L : pyfloat) :
  fle L (Fin (slo_p95_ms cfg)) = true -> slo_score cfg (Some L) = Ok (Fin 1).
Proof.
  intro H. unfold slo_score. now rewrite H.
Qed.

Lemma slo_score_above (L : pyfloat) :
  fle L (Fin (slo_p95_ms cfg)) = false ->
  slo_score cfg (Some L)
  = Ok (pymax (Fin 0)
          (fsub (Fin 1)
             (fquot (fsub L (Fin (slo_p95_ms cfg)))
                    (Fin (slo_p95_ms cfg * 5))))).
Proof.
  intro H. unfold slo_score. rewrite H.
  rewrite fdiv_Fin; [reflexivity|]. lra.
Qed.

Lemma slo_score_finite (l : Q) :
  slo_score cfg (Some (Fin l))
  = Ok (if Qle_bool l (slo_p95_ms cfg) then Fin 1
        else pymax (Fin 0) (Fin (ramp (slo_p95_ms cfg) l))).
Proof.
  destruct (Qle_bool l (slo_p95_ms cfg)) eqn:E.
  - now apply slo_score_below.
  - now rewrite slo_score_above.
Qed.

Lemma pymax_zero_ramp (l : Q) :
  slo_p95_ms cfg < l ->
  in_unit (pymax (Fin 0) (Fin (ramp (slo_p95_ms cfg) l))) = true.
Proof.
  intro H. unfold in_unit. rewrite pymax_zero_lower. simpl.
  destruct (pymax_zero_Fin (ramp (slo_p95_ms cfg) l)) as [s [-> Hs]].
  apply fle_Fin. rewrite Hs. apply Q.max_lub; [lra|].
  apply Qlt_le_weak, ramp_lt_1, H.
Qed.

Lemma slo_score_PInf : slo_score cfg (Some PInf) = Ok (Fin 0).
Proof.
  rewrite slo_score_above by reflexivity.
  simpl. rewrite qsign_pos by lra. reflexivity.
Qed.

Lemma slo_score_NaN : slo_score cfg (Some NaN) = Ok (Fin 0).
Proof. now rewrite slo_score_above. Qed.

Lemma slo_score_unit (p95 : option pyfloat) :
  exists s, slo_score cfg p95 = Ok s /\ in_unit s = true.
Proof.
  destruct p95 as [[l| | |]|].
  - rewrite slo_score_finite. eexists. split; [reflexivity|].
    destruct (Qle_bool l (slo_p95_ms cfg)) eqn:E; [reflexivity|].
    apply pymax_zero_ramp. now apply (fle_Fin_false l (slo_p95_ms cfg)).
  - rewrite slo_score_PInf. now eexists.
  - rewrite slo_score_below by reflexivity. now eexists.
  - rewrite slo_score_NaN. now eexists.
  - now eexists.
Qed.

Lemma slo_score_zero (L : pyfloat) :
  fle (Fin (slo_p95_ms cfg * 6)) L = true ->
  slo_score cfg (Some L) = Ok (Fin 0).
Proof.
  destruct L as [l| | |]; intro H; try discriminate.
  - apply fle_Fin in H. rewrite slo_score_finite.
    assert (Hl : slo_p95_ms cfg < l) by lra.
    apply (fle_Fin_false l (slo_p95_ms cfg)) in Hl. simpl in Hl. rewrite Hl.
    unfold pymax, fgt.
    assert (Hr : flt (Fin 0) (Fin (ramp (slo_p95_ms cfg) l)) = false).
    { apply flt_Fin_false. now apply ramp_nonpos. }
    now rewrite Hr.
  - apply slo_score_PInf.
Qed.

Lemma slo_score_antitone (L1 L2 : pyfloat) :
  fle L1 L2 = true ->
  exists s1 s2, slo_score cfg (Some L1) = Ok s1
                /\ slo_score cfg (Some L2) = Ok s2
                /\ fle s2 s1 = true.
Proof.
  intro H.
  destruct (slo_score_unit (Some L1)) as [s1 [E1 U1]].
  destruct (slo_score_unit (Some L2)) as [s2 [E2 U2]].
  exists s1, s2. split; [exact E1|]. split; [exact E2|].
  unfold in_unit in U1, U2.
  apply andb_true_iff in U1 as [U1l U1u], U2 as [U2l U2u].
  destruct L1 as [l1| | |], L2 as [l2| | |]; try discriminate.
  - apply fle_Fin in H.
    rewrite slo_score_finite in E1, E2.
    destruct (Qle_bool l1 (slo_p95_ms cfg)) eqn:C1.
    + injection E1 as <-. exact U2u.
    + destruct (Qle_bool l2 (slo_p95_ms cfg)) eqn:C2.
      * apply Qle_bool_iff in C2.
        apply (fle_Fin_false l1 (slo_p95_ms cfg)) in C1. lra.
      * injection E1 as <-. injection E2 as <-.
        destruct (pymax_zero_Fin (ramp (slo_p95_ms cfg) l1)) as [q1 [-> Q1]].
        destruct (pymax_zero_Fin (ramp (slo_p95_ms cfg) l2)) as [q2 [-> Q2]].
        apply fle_Fin. rewrite Q1, Q2.
        apply Q.max_le_compat_l. now apply ramp_antitone.
  - rewrite slo_score_PInf in E2. injection E2 as <-. exact U1l.
  - rewrite slo_score_PInf in E2. injection E2 as <-. exact U1l.
  - rewrite slo_score_below in E1 by reflexivity. injection E1 as <-.
    exact U2u.
  - rewrite slo_score_below in E1 by reflexivity. injection E1 as <-.
    exact U2u.
  - rewrite slo_score_below in E1 by reflexivity. injection E1 as <-.
    exact U2u.
Qed.

End SloFacts.

(* ------------------------------------------------------------------ *)
(** ** Dicts *)

Section DictFacts.

Context {V : Type}.

Lemma key_eqb_str (s : string) : key_eqb (JStr s) (JStr s) = true.
Proof. simpl. apply String.eqb_refl. Qed.

Lemma dict_get_put_same (k : json) (v : V) (d : pydict V) :
  key_eqb k k = true -> dict_get k (dict_put k v d) = Some v.
Proof.
  intro Hk. induction d as [|[k' v'] d IH]; simpl.
  - now rewrite Hk.
  - destruct (key_eqb k' k) eqn:E; simpl; now rewrite E.
Qed.

Lemma dict_get_put_str (r : string) (v : V) (d : pydict V) :
  dict_get (JStr r) (dict_put (JStr r) v d) = Some v.
Proof. apply dict_get_put_same, key_eqb_str. Qed.

Lemma key_eqb_str_inv (e : json) (s : string) :
  key_eqb e (JStr s) = true -> e = JStr s.
Proof.
  destruct e as [| b | z | x | s' | l | m]; simpl; try discriminate.
  - now destruct x.
  - intro H. apply String.eqb_eq in H. now subst.
Qed.

(** Assignment under one string key leaves every other string key as
    it was. *)
Lemma dict_get_put_other_str (s r : string) (v : V) (d : pydict V) :
  s <> r -> dict_get (JStr s) (dict_put (JStr r) v d) = dict_get (JStr s) d.
Proof.
  intro Hne. induction d as [|[e x] d IH]; simpl.
  - apply String.eqb_neq in Hne. rewrite String.eqb_sym. now rewrite Hne.
  - destruct (key_eqb e (JStr r)) eqn:E; simpl.
    + apply key_eqb_str_inv in E. subst e. simpl.
      apply String.eqb_neq in Hne. rewrite String.eqb_sym. now rewrite Hne.
    + now rewrite IH.
Qed.

Lemma dict_setitem_str (r : string) (v : V) (d : pydict V) :
  dict_setitem (JStr r) v d = Ok (dict_put (JStr r) v d).
Proof. reflexivity. Qed.

(** A second assignment under [NaN], or under [1] after [True], writes
    to the entry of the first. *)
Lemma nan_is_one_key (v1 v2 : V) :
  dict_put (JFloat NaN) v2 (dict_put (JFloat NaN) v1 []) = [(JFloat NaN, v2)]
  /\ dict_put (JInt 1) v2 (dict_put (JBool true) v1 []) = [(JBool true, v2)].
Proof. split; reflexivity. Qed.

End DictFacts.

(* ------------------------------------------------------------------ *)
(** ** The resolver *)

Section ResolverFacts.

Variable float_of_str : string -> option pyfloat.
Variable cfg : config.

Lemma fetch_electricitymap_returns (w : world) (zone : string) :
  exists r, fetch_electricitymap float_of_str cfg w zone = Ok r.
Proof.
  unfold fetch_electricitymap.
  destruct (_ || _); eexists; reflexivity.
Qed.

Lemma fetch_watttime_index_returns (w : world)
  (params : list (string * string)) :
  exists r, fetch_watttime_index float_of_str cfg w params = Ok r.
Proof.
  unfold fetch_watttime_index.
  destruct (_ || _); eexists; reflexivity.
Qed.

Lemma get_carbon_miss_eq (w : world) (region : string) (st : state) :
  let v := resolve_spec (provider_chain float_of_str cfg w region) (carbon_map st)
             (default_carbon cfg) region in
  get_carbon_miss float_of_str cfg w region st
  = (Ok v,
     {| carbon_map := carbon_map st;
        _carbon_cache :=
          dict_put (JStr region) (v, now w) (_carbon_cache st) |}).
Proof.
  unfold get_carbon_miss, resolve_spec, provider_chain, first_value,
    provider_value, electricitymap_provider, watttime_provider.
  unfold bindM, try_except, lift, ret, get_state.
  destruct (em_enabled (electricitymap cfg));
    [destruct (fetch_electricitymap _ _ _ _) as [[x|]|e]|];
    simpl; try reflexivity;
    (destruct (wt_enabled (watttime cfg));
     [destruct (fetch_watttime_index _ _ _ _) as [[y|]|e']|];
     simpl; reflexivity).
Qed.

Lemma get_carbon_hit (w : world) (region : string) (st : state)
  (v : pyfloat) (ts : Q) :
  dict_get (JStr region) (_carbon_cache st) = Some (v, ts) ->
  now w - ts < cache_ttl cfg ->
  get_carbon float_of_str cfg w region st = (Ok v, st).
Proof.
  intros Hc Hfresh. unfold get_carbon, bindM, get_state. rewrite Hc.
  assert (E : Qlt_bool (now w - ts) (cache_ttl cfg) = true).
  { unfold Qlt_bool. apply negb_true_iff.
    destruct (Qle_bool _ _) eqn:E; [|reflexivity].
    apply Qle_bool_iff in E. lra. }
  now rewrite E.
Qed.

Lemma get_carbon_stale (w : world) (region : string) (st : state) :
  cache_stale cfg w region st ->
  get_carbon float_of_str cfg w region st
  = get_carbon_miss float_of_str cfg w region st.
Proof.
  unfold cache_stale, get_carbon, bindM, get_state.
  destruct (dict_get _ _) as [[v ts]|]; [|reflexivity].
  intro H. unfold Qlt_bool.
  apply Qle_bool_iff in H. now rewrite H.
Qed.

Lemma get_carbon_returns (w : world) (region : string) (st : state) :
  exists v st', get_carbon float_of_str cfg w region st = (Ok v, st').
Proof.
  unfold get_carbon, bindM, get_state.
  destruct (dict_get _ _) as [[v ts]|].
  - destruct (Qlt_bool _ _).
    + now eexists; eexists.
    + rewrite get_carbon_miss_eq. now eexists; eexists.
  - rewrite get_carbon_miss_eq. now eexists; eexists.
Qed.

End ResolverFacts.

(* ------------------------------------------------------------------ *)
(** ** The scorer *)

Section ScorerFacts.

Variable float_of_str : string -> option pyfloat.
Variable cfg : config.

Lemma in_unit_Fin (x : pyfloat) :
  in_unit x = true <-> exists q, x = Fin q /\ 0 <= q <= 1.
Proof.
  unfold in_unit. rewrite andb_true_iff. split.
  - intros [Hl Hu]. destruct x as [q| | |]; try discriminate.
    exists q. apply fle_Fin in Hl, Hu. auto.
  - intros [q [-> [Hl Hu]]]. split; apply fle_Fin; assumption.
Qed.

Lemma carbon_score_eq (v : pyfloat) :
  carbon_score v = Ok (pymax (Fin 0) (fsub (Fin 1) (fquot v (Fin 1000)))).
Proof.
  unfold carbon_score. rewrite fdiv_Fin; [reflexivity|]. lra.
Qed.

Lemma carbon_score_bounds (v : pyfloat) :
  exists s, carbon_score v = Ok s
            /\ fle (Fin 0) s = true
            /\ (fle (Fin 0) v = true -> fle s (Fin 1) = true).
Proof.
  rewrite carbon_score_eq. eexists. split; [reflexivity|].
  split; [apply pymax_zero_lower|].
  destruct v as [q| | |]; intro H; try discriminate; [|reflexivity].
  apply fle_Fin in H. cbn [fquot fsub fneg fadd].
  destruct (pymax_zero_Fin (1 + - (q / 1000))) as [s [-> Hs]].
  apply fle_Fin. rewrite Hs. apply Q.max_lub; [lra|].
  unfold Qdiv. assert (H1 : / 1000 == 1 # 1000) by reflexivity.
  rewrite H1. lra.
Qed.

Lemma cost_score_bounds :
  exists k, cost_score cfg = Ok (Fin k)
            /\ 0 <= k
            /\ (0 <= cost_per_replica cfg -> k <= 1).
Proof.
  unfold cost_score.
  assert (Hd : exists d, pymax (Fin (1 # 1000000)) (Fin (cost_norm_max cfg))
                         = Fin d /\ 0 < d).
  { unfold pymax, fgt.
    destruct (flt _ _) eqn:E.
    - apply flt_Fin in E. eexists. split; [reflexivity|]. lra.
    - eexists. split; [reflexivity|]. reflexivity. }
  destruct Hd as [d [-> Hd]].
  rewrite fdiv_Fin by lra. cbn [bind fquot].
  set (q := cost_per_replica cfg / d).
  assert (Hq : 0 <= cost_per_replica cfg -> 0 <= q).
  { intro H. subst q. apply Qle_shift_div_l; [exact Hd|]. lra. }
  unfold pymin. destruct (flt (Fin q) (Fin 1)) eqn:E; cbn [fsub fneg fadd].
  - apply flt_Fin in E. eexists. split; [reflexivity|].
    split; [lra|]. intro H. specialize (Hq H). lra.
  - eexists. split; [reflexivity|]. split; [lra|]. intros _. lra.
Qed.

(** [compute_scores] returns, and these are its fields. *)
Lemma compute_scores_eq (w : world) (p95 : option pyfloat) (region : string)
  (st : state) :
  0 < slo_p95_ms cfg ->
  exists s v c k st',
    slo_score cfg p95 = Ok s
    /\ get_carbon float_of_str cfg w region st = (Ok v, st')
    /\ carbon_score v = Ok c
    /\ cost_score cfg = Ok k
    /\ compute_scores float_of_str cfg w p95 region st
       = (Ok {| slo := s; carbon := c; cost := k;
                combined :=
                  fadd (fadd (fmul (Fin (weights_slo cfg)) s)
                             (fmul (Fin (weights_carbon cfg)) c))
                       (fmul (Fin (weights_cost cfg)) k);
                carbon_g := v |}, st').
Proof.
  intro Ht.
  destruct (slo_score_unit cfg Ht p95) as [s [Es _]].
  destruct (get_carbon_returns float_of_str cfg w region st) as [v [st' Ev]].
  destruct (carbon_score_bounds v) as [c [Ec _]].
  destruct cost_score_bounds as [k [Ek _]].
  exists s, v, c, (Fin k), st'. repeat split; try assumption.
  unfold compute_scores, bindM, lift, ret.
  now rewrite Es, Ev, Ec, Ek.
Qed.

End ScorerFacts.

(* ------------------------------------------------------------------ *)
(** ** The scaling policy *)

Section PolicyFacts.

Variable float_of_str : string -> option pyfloat.
Variable cfg : config.

(** Above the target is not below the scale-down threshold, when the
    threshold is not above the target. *)
Lemma above_not_below (p : pyfloat) :
  fle (scale_down_threshold cfg) (Fin (slo_p95_ms cfg)) = true ->
  fgt p (Fin (slo_p95_ms cfg)) = true ->
  flt p (scale_down_threshold cfg) = false.
Proof.
  intros Ht H. unfold fgt in H.
  destruct (scale_down_threshold cfg) as [d| | |]; try discriminate;
    destruct p as [q| | |]; try discriminate; try reflexivity.
  apply flt_Fin in H. apply fle_Fin in Ht. apply flt_Fin_false. lra.
Qed.

(** A target that is a binary64 number and not negative is not below
    its scale-down threshold. *)
Lemma threshold_below_target :
  0 <= slo_p95_ms cfg ->
  Binary64.exact (slo_p95_ms cfg) = true ->
  fle (scale_down_threshold cfg) (Fin (slo_p95_ms cfg)) = true.
Proof. apply product_below_target. Qed.

(** The threshold is the rounded product: at target 128 it is the float
    [76.8], which lies below the rational 76.8; a latency of that float
    is not below it, and the policy holds the count. *)
Lemma threshold_of_128 :
  let latency := 5404319552844595 # 70368744177664 in
  feqb (scale_down_threshold (with_target 128 scenario_config)) (Fin latency)
  = true
  /\ latency < 128 * (6 # 10)
  /\ new_replicas (with_target 128 scenario_config) (Some (Fin latency)) 3
     = 3%Z.
Proof. repeat split. Qed.

Lemma scale_up_guard (p : pyfloat) (cur : Z) :
  fgt p (Fin (slo_p95_ms cfg)) && (cur <? max_replicas cfg)%Z = true
  <-> scale_up cfg (Some p) cur.
Proof.
  unfold scale_up. rewrite andb_true_iff, Z.ltb_lt. split.
  - intros [H1 H2]. exists p. auto.
  - intros [p' [Hp H]]. injection Hp as <-. exact H.
Qed.

Lemma scale_down_guard (p : pyfloat) (cur : Z) :
  flt p (scale_down_threshold cfg) && (cur >? min_replicas cfg)%Z = true
  <-> scale_down cfg (Some p) cur.
Proof.
  unfold scale_down. rewrite andb_true_iff, Z.gtb_lt. split.
  - intros [H1 H2]. exists p. split; [reflexivity|]. split; [assumption|lia].
  - intros [p' [Hp [H1 H2]]]. injection Hp as <-. split; [assumption|lia].
Qed.

(** [newr] by cases on the two guards of the policy, in their order. *)
Lemma new_replicas_cases (p95 : option pyfloat) (cur : Z) :
  (scale_up cfg p95 cur /\ new_replicas cfg p95 cur = (cur + 1)%Z)
  \/ (~ scale_up cfg p95 cur /\ scale_down cfg p95 cur
      /\ new_replicas cfg p95 cur = (cur - 1)%Z)
  \/ (~ scale_up cfg p95 cur /\ ~ scale_down cfg p95 cur
      /\ new_replicas cfg p95 cur = cur).
Proof.
  destruct p95 as [p|].
  - unfold new_replicas.
    destruct (fgt p _ && _) eqn:Eup.
    + left. pose proof (proj1 (scale_up_guard p cur) Eup) as Hup.
      split; [exact Hup|]. destruct Hup as [_ [_ [_ Hlt]]]. lia.
    + right.
      assert (Hup : ~ scale_up cfg (Some p) cur).
      { intro H. apply scale_up_guard in H. congruence. }
      destruct (flt p _ && _) eqn:Edown.
      * left. pose proof (proj1 (scale_down_guard p cur) Edown) as Hdown.
        split; [exact Hup|]. split; [exact Hdown|].
        destruct Hdown as [_ [_ [_ Hgt]]]. lia.
      * right. split; [exact Hup|]. split; [|reflexivity].
        intro H. apply scale_down_guard in H. congruence.
  - right. right. split; [|split; [|reflexivity]];
      intros [p [Hp _]]; discriminate.
Qed.





(** The step is one replica at most, towards the side the guard allows. *)
Lemma new_replicas_step (p95 : option pyfloat) (cur : Z) :
  let newr := new_replicas cfg p95 cur in
  newr = cur
  \/ (newr = (cur + 1)%Z /\ (newr <= max_replicas cfg)%Z)
  \/ (newr = (cur - 1)%Z /\ (min_replicas cfg <= newr)%Z).
Proof.
  destruct (new_replicas_cases p95 cur)
    as [[[p [_ [_ U]]] E]|[[_ [[p [_ [_ D]]] E]]|[_ [_ E]]]]; cbv zeta.
  - right. left. lia.
  - right. right. lia.
  - now left.
Qed.

Lemma new_replicas_within (p95 : option pyfloat) (cur : Z) :
  (min_replicas cfg <= cur <= max_replicas cfg)%Z ->
  (min_replicas cfg <= new_replicas cfg p95 cur <= max_replicas cfg)%Z.
Proof.
  intro H. destruct (new_replicas_step p95 cur) as [E|[[E ?]|[E ?]]];
    rewrite E in *; lia.
Qed.

(** Started inside the interval and left to the controller, the replica
    count stays inside it, over any number of iterations. *)
Lemma replicas_after_within (iterations : list (option pyfloat * bool)) :
  forall cur : Z,
    (min_replicas cfg <= cur <= max_replicas cfg)%Z ->
    (min_replicas cfg <= replicas_after cfg iterations cur
     <= max_replicas cfg)%Z.
Proof.
  induction iterations as [|[p95 ok] rest IH]; intros cur H; simpl.
  - exact H.
  - apply IH. destruct ok; [now apply new_replicas_within|exact H].
Qed.

Lemma run_cycle_eq (w : world) (p95 : option pyfloat) (read : pyres Z)
  (st : state) :
  0 < slo_p95_ms cfg ->
  exists sc st',
    compute_scores float_of_str cfg w p95 "local" st = (Ok sc, st')
    /\ run_cycle float_of_str cfg w p95 read st
       = (Ok match read with
             | Ok cur =>
                 {| scores := sc;
                    replicas := Some (cur, new_replicas cfg p95 cur);
                    patched :=
                      if negb (new_replicas cfg p95 cur =? cur)%Z
                      then Some (new_replicas cfg p95 cur) else None |}
             | Raise _ =>
                 {| scores := sc; replicas := None; patched := None |}
             end, st').
Proof.
  intro Ht.
  destruct (compute_scores_eq float_of_str cfg w p95 "local" st Ht)
    as (s & v & c & k & st' & _ & _ & _ & _ & E).
  eexists. exists st'. split; [exact E|].
  unfold run_cycle, bindM, ret. rewrite E. now destruct read.
Qed.

Lemma run_cycle_patched (w : world) (p95 : option pyfloat) (read : pyres Z)
  (st st' : state) (rep : cycle_report) (n : Z) :
  run_cycle float_of_str cfg w p95 read st = (Ok rep, st') ->
  patched rep = Some n ->
  exists cur, read = Ok cur /\ n = new_replicas cfg p95 cur /\ n <> cur.
Proof.
  unfold run_cycle, bindM, ret.
  destruct (compute_scores _ _ _ _ _ _) as [[sc|e] st1]; [|discriminate].
  destruct read as [cur|e]; intro H; injection H as <- <-; simpl; intro Hp.
  - exists cur. split; [reflexivity|].
    destruct (new_replicas cfg p95 cur =? cur)%Z eqn:E; simpl in Hp;
      [discriminate|].
    injection Hp as <-. apply Z.eqb_neq in E. auto.
  - discriminate.
Qed.

End PolicyFacts.

(* ------------------------------------------------------------------ *)
(** ** The ingestion handler *)

Section HandlerFacts.

Variable float_of_str : string -> option pyfloat.

Lemma do_POST_other_path (req : request) (t : Q) (st : state) :
  path req <> "/update_carbon" ->
  do_POST float_of_str req t st = (Ok not_found, st).
Proof.
  intro H. unfold do_POST.
  apply String.eqb_neq in H. now rewrite H.
Qed.

Lemma do_POST_length_raises (req : request) (t : Q) (st : state)
  (e : pyexn) :
  path req = "/update_carbon" ->
  content_length req = Raise e ->
  do_POST float_of_str req t st = (Raise e, st).
Proof.
  intros Hp Hl. unfold do_POST. rewrite Hp, String.eqb_refl.
  unfold bindM, lift. now rewrite Hl.
Qed.

Lemma do_POST_eq (req : request) (t : Q) (st : state) (n : Z) :
  path req = "/update_carbon" ->
  content_length req = Ok n ->
  do_POST float_of_str req t st
  = match accepted float_of_str (loaded_body req n) with
    | Some (region, v) => (Ok ok_response, ingested region v t st)
    | None => (Ok bad_request, st)
    end.
Proof.
  intros Hp Hl. unfold do_POST. rewrite Hp, String.eqb_refl.
  unfold bindM at 1. unfold lift at 1. rewrite Hl.
  unfold accepted, try_except, bindM, lift.
  destruct (loaded_body req n) as [j|e]; [|reflexivity].
  destruct j as [| b | z | x | s | l | m]; try reflexivity.
  cbn [py_get].
  destruct (assoc "carbon" m) as [c|]; [|reflexivity].
  destruct (py_float float_of_str c) as [v|e]; [|reflexivity].
  unfold set_carbon_map, set_carbon_cache, bindM, lift, get_state, put_state,
    dict_setitem, ret.
  destruct (hashable _); reflexivity.
Qed.

(** Whatever the handler does short of answering 200, it leaves the two
    dicts as they were. *)
Lemma do_POST_atomic (req : request) (t : Q) (st st' : state)
  (r : pyres response) :
  do_POST float_of_str req t st = (r, st') ->
  r <> Ok ok_response -> st' = st.
Proof.
  intros H Hr.
  destruct (String.eqb_spec (path req) "/update_carbon") as [Hp|Hp].
  - destruct (content_length req) as [n|e] eqn:Hl.
    + rewrite (do_POST_eq req t st n Hp Hl) in H.
      destruct (accepted _ _) as [[region v]|];
        injection H as <- <-; [contradiction|reflexivity].
    + rewrite (do_POST_length_raises req t st e Hp Hl) in H.
      now injection H as <- <-.
  - rewrite (do_POST_other_path req t st Hp) in H. now injection H as <- <-.
Qed.

Lemma accepted_object (m : list (string * json)) (region c : json)
  (v : pyfloat) :
  assoc "carbon" m = Some c ->
  py_float float_of_str c = Ok v ->
  region = match assoc "region" m with Some r => r | None => JStr "local" end ->
  hashable region = true ->
  accepted float_of_str (Ok (JObj m)) = Some (region, v).
Proof.
  intros Hc Hv -> Hh. unfold accepted. now rewrite Hc, Hv, Hh.
Qed.

Lemma ingested_cache (r : string) (v : pyfloat) (t : Q) (st : state) :
  dict_get (JStr r) (_carbon_cache (ingested (JStr r) v t st)) = Some (v, t).
Proof. apply dict_get_put_str. Qed.

Lemma ingested_map (r : string) (v : pyfloat) (t : Q) (st : state) :
  dict_get (JStr r) (carbon_map (ingested (JStr r) v t st)) = Some v.
Proof. apply dict_get_put_str. Qed.

End HandlerFacts.

(* ------------------------------------------------------------------ *)
(** ** Unvalidated input *)

Section RawFacts.

Variable float_of_str : string -> option pyfloat.

(** A fetcher reads its own section and nothing else of the
    configuration. *)
Lemma fetch_electricitymap_section (cfg : config) (wt : wt_provider)
  (w : world) (zone : string) :
  fetch_electricitymap float_of_str (Raw.sections (electricitymap cfg) wt) w
    zone
  = fetch_electricitymap float_of_str cfg w zone.
Proof. reflexivity. Qed.

Lemma fetch_watttime_index_section (cfg : config) (em : em_provider)
  (w : world) (params : list (string * string)) :
  fetch_watttime_index float_of_str (Raw.sections em (watttime cfg)) w params
  = fetch_watttime_index float_of_str cfg w params.
Proof. reflexivity. Qed.

Lemma raw_get_carbon_miss_eq (cfg : Raw.config) (w : world) (region : string)
  (st : Raw.state) (em : em_provider) :
  Raw.electricitymap cfg = Some em ->
  let cached v :=
    {| Raw.carbon_map := Raw.carbon_map st;
       Raw._carbon_cache :=
         dict_put (JStr region) (v, now w) (Raw._carbon_cache st) |} in
  Raw.get_carbon_miss float_of_str cfg w region st
  = match provider_value
            (electricitymap_provider float_of_str
               (Raw.sections em Raw.no_watttime) w region) with
    | Some v => (Ok v, cached v)
    | None =>
        match Raw.watttime cfg with
        | None => (Raise AttributeError, st)
        | Some wt =>
            match provider_value
                    (watttime_provider float_of_str
                       (Raw.sections Raw.no_electricitymap wt) w) with
            | Some v => (Ok v, cached v)
            | None =>
                match py_float float_of_str (Raw.fallback cfg region st) with
                | Ok v => (Ok v, cached v)
                | Raise e => (Raise e, st)
                end
            end
        end
    end.
Proof.
  intros Hem cached. unfold Raw.get_carbon_miss.
  unfold provider_value, electricitymap_provider, watttime_provider.
  unfold bindM at 1. unfold lift at 1. rewrite Hem. cbn [Raw.mapping].
  cbn [electricitymap watttime Raw.sections].
  unfold bindM, try_except, lift, ret, get_state.
  destruct (em_enabled em);
    [destruct (fetch_electricitymap _ _ _ _) as [[x|]|e]|];
    cbn [catch]; try reflexivity;
    (destruct (Raw.watttime cfg) as [wt|]; cbn [Raw.mapping]; [|reflexivity];
     destruct (wt_enabled wt);
     [destruct (fetch_watttime_index _ _ _ _) as [[y|]|e']|];
     cbn [catch]; try reflexivity;
     destruct (py_float float_of_str _); reflexivity).
Qed.

(** With both sections mappings and a fallback value that converts, the
    part after the cache test returns. *)
Lemma raw_get_carbon_miss_returns (cfg : Raw.config) (w : world)
  (region : string) (st : Raw.state) (em : em_provider) (wt : wt_provider)
  (x : pyfloat) :
  Raw.electricitymap cfg = Some em ->
  Raw.watttime cfg = Some wt ->
  py_float float_of_str (Raw.fallback cfg region st) = Ok x ->
  exists v st', Raw.get_carbon_miss float_of_str cfg w region st = (Ok v, st').
Proof.
  intros Hem Hwt Hx. rewrite (raw_get_carbon_miss_eq cfg w region st em Hem).
  rewrite Hwt, Hx.
  destruct (provider_value (electricitymap_provider _ _ _ _));
    [|destruct (provider_value (watttime_provider _ _ _))];
    eexists; eexists; reflexivity.
Qed.

Lemma raw_get_carbon_cases (cfg : Raw.config) (w : world) (region : string)
  (st : Raw.state) :
  (exists v, Raw.get_carbon float_of_str cfg w region st = (Ok v, st))
  \/ Raw.get_carbon float_of_str cfg w region st
     = Raw.get_carbon_miss float_of_str cfg w region st.
Proof.
  unfold Raw.get_carbon, bindM, get_state.
  destruct (dict_get _ _) as [[v ts]|]; [|now right].
  destruct (Qlt_bool _ _); [left; now exists v|now right].
Qed.

Lemma map_values_get (k : json) (d : pydict pyfloat) :
  dict_get k (map (fun kv => (fst kv, JFloat (snd kv))) d)
  = option_map JFloat (dict_get k d).
Proof.
  induction d as [|[k' v] d IH]; [reflexivity|].
  cbn [map dict_get fst snd]. now destruct (key_eqb k' k).
Qed.

Lemma map_values_put (k : json) (v : pyfloat) (d : pydict pyfloat) :
  dict_put k (JFloat v) (map (fun kv => (fst kv, JFloat (snd kv))) d)
  = map (fun kv => (fst kv, JFloat (snd kv))) (dict_put k v d).
Proof.
  induction d as [|[k' v'] d IH]; [reflexivity|].
  cbn [map dict_put fst snd]. destruct (key_eqb k' k); [reflexivity|].
  cbn [map fst snd]. now rewrite IH.
Qed.

(** On a configuration and a state read into numbers and records,
    [Raw.get_carbon] returns what [get_carbon] returns and leaves the
    state it leaves. *)
Lemma raw_get_carbon_typed (cfg : config) (w : world) (region : string)
  (st : state) :
  Raw.get_carbon float_of_str (raw_config cfg) w region (raw_state st)
  = (fst (get_carbon float_of_str cfg w region st),
     raw_state (snd (get_carbon float_of_str cfg w region st))).
Proof.
  assert (Miss :
    Raw.get_carbon_miss float_of_str (raw_config cfg) w region (raw_state st)
    = (fst (get_carbon_miss float_of_str cfg w region st),
       raw_state (snd (get_carbon_miss float_of_str cfg w region st)))).
  { rewrite (raw_get_carbon_miss_eq (raw_config cfg) w region (raw_state st)
               (electricitymap cfg) eq_refl).
    rewrite get_carbon_miss_eq. cbn [fst snd Raw.watttime raw_config].
    unfold resolve_spec, provider_chain, first_value.
    unfold electricitymap_provider, watttime_provider.
    cbn [electricitymap watttime Raw.sections].
    destruct (provider_value (em_enabled (electricitymap cfg), _));
      [reflexivity|].
    destruct (provider_value (wt_enabled (watttime cfg), _)); [reflexivity|].
    unfold Raw.fallback. cbn [Raw.carbon_map raw_state Raw.default_carbon raw_config].
    rewrite map_values_get.
    destruct (dict_get (JStr region) (carbon_map st)); reflexivity. }
  unfold Raw.get_carbon, get_carbon, bindM, get_state.
  cbn [Raw._carbon_cache raw_state Raw.cache_ttl raw_config].
  destruct (dict_get _ _) as [[v ts]|]; [|exact Miss].
  destruct (Qlt_bool _ _); [reflexivity|exact Miss].
Qed.

Lemma raw_do_POST_other_path (c : Raw.connection) (t : Q) (st : Raw.state) :
  path (Raw.received c) <> "/update_carbon" ->
  Raw.do_POST float_of_str c t st = (Ok not_found, st).
Proof.
  intro H. unfold Raw.do_POST. cbv zeta.
  apply String.eqb_neq in H. now rewrite H.
Qed.

Lemma raw_do_POST_length_raises (c : Raw.connection) (t : Q) (st : Raw.state)
  (e : pyexn) :
  path (Raw.received c) = "/update_carbon" ->
  content_length (Raw.received c) = Raise e ->
  Raw.do_POST float_of_str c t st = (Raise e, st).
Proof.
  intros Hp Hl. unfold Raw.do_POST. cbv zeta. rewrite Hp, String.eqb_refl.
  unfold bindM, lift. now rewrite Hl.
Qed.

(** The handler by cases: a body it does not accept is answered 400
    before anything is written; for one it accepts both dicts are
    written, and the answer is 200 or 400 as lines 199 to 201 return or
    raise. *)
Lemma raw_do_POST_eq (c : Raw.connection) (t : Q) (st : Raw.state) (n : Z) :
  path (Raw.received c) = "/update_carbon" ->
  content_length (Raw.received c) = Ok n ->
  Raw.do_POST float_of_str c t st
  = match accepted float_of_str (loaded_body (Raw.received c) n) with
    | Some (region, v) =>
        (Ok match Raw.acknowledge c region v with
            | Ok _ => ok_response
            | Raise _ => bad_request
            end,
         Raw.ingested region v t st)
    | None => (Ok bad_request, st)
    end.
Proof.
  intros Hp Hl. unfold Raw.do_POST. cbv zeta. rewrite Hp, String.eqb_refl.
  unfold bindM at 1. unfold lift at 1. rewrite Hl.
  unfold accepted, try_except, bindM, lift.
  destruct (loaded_body (Raw.received c) n) as [j|e]; [|reflexivity].
  destruct j as [| b | z | x | s | l | m]; try reflexivity.
  cbn [py_get].
  destruct (assoc "carbon" m) as [v0|]; [|reflexivity].
  destruct (py_float float_of_str v0) as [v|e]; [|reflexivity].
  unfold Raw.set_carbon_map, Raw.set_carbon_cache, bindM, lift, get_state,
    put_state, dict_setitem, ret.
  destruct (hashable _); [|reflexivity].
  cbn [Raw.carbon_map Raw._carbon_cache]. unfold Raw.ingested.
  now destruct (Raw.acknowledge c _ v).
Qed.

(** On a connection whose output goes through and a state read into
    numbers, [Raw.do_POST] answers what [do_POST] answers and leaves the
    state it leaves. *)
Lemma raw_do_POST_typed (req : request) (t : Q) (st : state) :
  Raw.do_POST float_of_str (Raw.sound req) t (raw_state st)
  = (fst (do_POST float_of_str req t st),
     raw_state (snd (do_POST float_of_str req t st))).
Proof.
  destruct (String.eqb_spec (path req) "/update_carbon") as [Hp|Hp].
  - destruct (content_length req) as [n|e] eqn:Hl.
    + rewrite (raw_do_POST_eq (Raw.sound req) t (raw_state st) n Hp Hl).
      rewrite (do_POST_eq float_of_str req t st n Hp Hl).
      cbn [Raw.received Raw.sound Raw.acknowledge].
      destruct (accepted _ _) as [[region v]|]; [|reflexivity].
      cbn [fst snd]. unfold Raw.ingested, ingested, raw_state.
      cbn [Raw.carbon_map Raw._carbon_cache carbon_map _carbon_cache].
      now rewrite map_values_put.
    + rewrite (raw_do_POST_length_raises (Raw.sound req) t _ e Hp Hl).
      now rewrite (do_POST_length_raises float_of_str req t st e Hp Hl).
  - rewrite (raw_do_POST_other_path (Raw.sound req) t _ Hp).
    now rewrite (do_POST_other_path float_of_str req t st Hp).
Qed.

End RawFacts.

(* ------------------------------------------------------------------ *)
(** ** The properties of the specification *)

(** C1, as amended.  Whenever an iteration of the loop calls
    [patch_replicas], the count it passes is one above or one below the
    count it read; a step up never passes [max_replicas] and a step down
    never passes [min_replicas]; and when the count it read lies in
    [[min_replicas, max_replicas]], so does the count it patches, for
    every latency reading.  Hence a deployment that starts inside the
    interval and is changed by the controller alone stays inside it over
    any number of iterations. *)
Theorem patched_within_bounds
  (float_of_str : string -> option pyfloat) (cfg : config) :
  (forall (w : world) (p95 : option pyfloat) (read : pyres Z)
          (st st' : state) (rep : cycle_report) (n : Z),
      run_cycle float_of_str cfg w p95 read st = (Ok rep, st') ->
      patched rep = Some n ->
      exists cur,
        read = Ok cur
        /\ ((n = cur + 1 /\ n <= max_replicas cfg)
            \/ (n = cur - 1 /\ min_replicas cfg <= n))%Z
        /\ ((min_replicas cfg <= cur <= max_replicas cfg)%Z ->
            (min_replicas cfg <= n <= max_replicas cfg)%Z))
  /\ (forall (iterations : list (option pyfloat * bool)) (cur : Z),
        (min_replicas cfg <= cur <= max_replicas cfg)%Z ->
        (min_replicas cfg <= replicas_after cfg iterations cur
         <= max_replicas cfg)%Z).
Proof.
  split; [|apply replicas_after_within].
  intros w p95 read st st' rep n Hrun Hp.
  destruct (run_cycle_patched float_of_str cfg w p95 read st st' rep n Hrun Hp)
    as [cur [Hread [Hn Hne]]].
  exists cur. split; [exact Hread|]. split.
  - destruct (new_replicas_step cfg p95 cur) as [E|[[E ?]|[E ?]]];
      rewrite <- Hn in *; [contradiction|left|right]; auto.
  - intro H. rewrite Hn. now apply new_replicas_within.
Qed.

(** An iteration at three replicas and 250 ms patches to four. *)
Lemma patched_within_bounds_witness :
  exists cur,
    Ok 3%Z = Ok cur
    /\ ((4 = cur + 1 /\ 4 <= max_replicas default_config)
        \/ (4 = cur - 1 /\ min_replicas default_config <= 4))%Z
    /\ ((min_replicas default_config <= cur <= max_replicas default_config)%Z ->
        (min_replicas default_config <= 4 <= max_replicas default_config)%Z).
Proof.
  eapply (proj1 (patched_within_bounds no_strings default_config)
            (offline 0) (Some (Fin 250)) (Ok 3%Z) empty_state).
  - vm_compute. reflexivity.
  - reflexivity.
Defined.

(** C1 as stated fails for a count read below the interval: with bounds
    two and five, a deployment found at zero replicas under a violated SLO
    is patched to one. *)
Lemma patched_below_min_replicas :
  exists rep st',
    run_cycle no_strings tight_config (offline 0) (Some (Fin 250)) (Ok 0%Z)
      empty_state = (Ok rep, st')
    /\ patched rep = Some 1%Z
    /\ ~ (min_replicas tight_config <= 1 <= max_replicas tight_config)%Z.
Proof.
  eexists. eexists. split; [vm_compute; reflexivity|].
  split; [reflexivity|]. simpl. lia.
Qed.

(** C2, as amended.  For a positive [slo_p95_ms], every latency input and
    every state, [compute_scores] returns, and: [slo] lies in [[0, 1]];
    [carbon] is at least 0, and at most 1 when the resolved intensity is
    not negative (only the lower end is clamped); [cost] is at least 0,
    and at most 1 when [cost_per_replica] is not negative; and when
    moreover the three weights are not negative, [combined] lies between
    0 and their sum, hence in [[0, 1]] when they sum to at most 1. *)
Theorem compute_scores_bounds
  (float_of_str : string -> option pyfloat) (cfg : config) (w : world)
  (p95 : option pyfloat) (region : string) (st : state) :
  0 < slo_p95_ms cfg ->
  exists sr st',
    compute_scores float_of_str cfg w p95 region st = (Ok sr, st')
    /\ in_unit (slo sr) = true
    /\ fle (Fin 0) (carbon sr) = true
    /\ (fle (Fin 0) (carbon_g sr) = true -> fle (carbon sr) (Fin 1) = true)
    /\ fle (Fin 0) (cost sr) = true
    /\ (0 <= cost_per_replica cfg -> fle (cost sr) (Fin 1) = true)
    /\ (0 <= weights_slo cfg -> 0 <= weights_carbon cfg ->
        0 <= weights_cost cfg ->
        fle (Fin 0) (carbon_g sr) = true -> 0 <= cost_per_replica cfg ->
        fle (Fin 0) (combined sr) = true
        /\ fle (combined sr)
             (Fin (weights_slo cfg + weights_carbon cfg + weights_cost cfg))
           = true
        /\ (weights_slo cfg + weights_carbon cfg + weights_cost cfg <= 1 ->
            in_unit (combined sr) = true)).
Proof.
  intro Ht.
  destruct (compute_scores_eq float_of_str cfg w p95 region st Ht)
    as (s & v & c & k & st' & Es & Ev & Ec & Ek & E).
  destruct (slo_score_unit cfg Ht p95) as [s' [Es' Us]].
  rewrite Es in Es'. injection Es' as <-.
  destruct (carbon_score_bounds v) as [c' [Ec' [Cl Cu]]].
  rewrite Ec in Ec'. injection Ec' as <-.
  destruct (cost_score_bounds cfg) as [qk [Ek' [Kl Ku]]].
  rewrite Ek in Ek'. injection Ek' as ->.
  eexists. exists st'. split; [exact E|]. cbn [slo carbon cost combined carbon_g].
  split; [exact Us|]. split; [exact Cl|]. split; [exact Cu|].
  split; [now apply fle_Fin|]. split; [intro H; apply fle_Fin; auto|].
  intros Ws Wc Wk Hv Hc.
  apply in_unit_Fin in Us as [qs [-> [Sl Su]]].
  specialize (Cu Hv). specialize (Ku Hc).
  destruct c as [qc| | |]; try discriminate.
  apply fle_Fin in Cl, Cu. cbn [fmul fadd].
  split; [apply fle_Fin; nra|]. split; [apply fle_Fin; nra|].
  intro Hsum. apply in_unit_Fin. eexists. split; [reflexivity|]. nra.
Qed.

(** The defaults at 250 ms score an SLO term inside the unit interval. *)
Lemma compute_scores_bounds_witness :
  0 < slo_p95_ms default_config
  /\ exists sr st',
       compute_scores no_strings default_config (offline 0) (Some (Fin 250))
         "local" empty_state = (Ok sr, st')
       /\ in_unit (slo sr) = true.
Proof.
  split; [reflexivity|].
  destruct (compute_scores_bounds no_strings default_config (offline 0)
              (Some (Fin 250)) "local" empty_state)
    as (sr & st' & E & U & _); [reflexivity|].
  exists sr, st'. split; [exact E|exact U].
Defined.

(** C2 as stated fails twice: an ingested intensity of -100 gives a
    carbon score, and with it a combined score, above one under the
    default weights; and with every weight set to one the combined score
    of an ordinary reading is above one. *)
Lemma scores_above_one :
  (exists sr st',
     compute_scores no_strings default_config (offline 0) (Some (Fin 100))
       "local" negative_reading = (Ok sr, st')
     /\ carbon_g sr = Fin (-100)
     /\ fle (carbon sr) (Fin 1) = false
     /\ fle (combined sr) (Fin 1) = false)
  /\ (exists sr st',
        compute_scores no_strings unit_weights (offline 0) (Some (Fin 100))
          "local" empty_state = (Ok sr, st')
        /\ carbon_g sr = Fin 300
        /\ fle (combined sr) (Fin 1) = false).
Proof.
  split; eexists; eexists; (split; [vm_compute; reflexivity|]);
    repeat split; reflexivity.
Qed.

(** C3.  For a positive target: the SLO score is 0.5 when the latency is
    absent; it is 1.0 for every latency [L <= slo_p95_ms]; otherwise it is
    [max(0, 1 - (L - target) / (target * 5))], which for a finite [L] is
    the value of [slo_score_spec]; it is 0.0 for every [L >= target * 6];
    and it does not increase as [L] grows. *)
Theorem slo_score_piecewise (cfg : config) :
  0 < slo_p95_ms cfg ->
  slo_score cfg None = Ok (Fin (1 # 2))
  /\ (forall L, fle L (Fin (slo_p95_ms cfg)) = true ->
                slo_score cfg (Some L) = Ok (Fin 1))
  /\ (forall L, fle L (Fin (slo_p95_ms cfg)) = false ->
                slo_score cfg (Some L)
                = Ok (pymax (Fin 0)
                        (fsub (Fin 1)
                           (fquot (fsub L (Fin (slo_p95_ms cfg)))
                                  (Fin (slo_p95_ms cfg * 5))))))
  /\ (forall l, exists s,
         slo_score cfg (Some (Fin l)) = Ok (Fin s)
         /\ s == slo_score_spec (slo_p95_ms cfg) (Some l))
  /\ (forall L, fle (Fin (slo_p95_ms cfg * 6)) L = true ->
                slo_score cfg (Some L) = Ok (Fin 0))
  /\ (forall L1 L2, fle L1 L2 = true ->
        exists s1 s2,
          slo_score cfg (Some L1) = Ok s1
          /\ slo_score cfg (Some L2) = Ok s2
          /\ fle s2 s1 = true).
Proof.
  intro Ht.
  split; [reflexivity|].
  split; [apply slo_score_below|].
  split; [now apply slo_score_above|].
  split.
  - intro l. rewrite (slo_score_finite cfg Ht). unfold slo_score_spec.
    destruct (Qle_bool l (slo_p95_ms cfg)).
    + exists 1. split; reflexivity.
    + destruct (pymax_zero_Fin (ramp (slo_p95_ms cfg) l)) as [s [-> Hs]].
      exists s. split; [reflexivity|exact Hs].
  - split; [now apply slo_score_zero|now apply slo_score_antitone].
Qed.

(** At the default target of 200 ms a latency of 1200 ms scores zero. *)
Lemma slo_score_piecewise_witness :
  0 < slo_p95_ms default_config
  /\ slo_score default_config (Some (Fin 1200)) = Ok (Fin 0).
Proof.
  split; [reflexivity|].
  apply (slo_score_piecewise default_config); reflexivity.
Defined.



(** C5.  When the cache has no entry for the region, or an expired one,
    [get_carbon] returns what [resolve_spec] describes: the value of
    electricitymap when it is enabled and yields one; else the value of
    watttime when it is enabled and yields one; else the [carbon_map]
    entry of the region; else [default_carbon].  The state it leaves has
    that value in the cache under the region, stamped with the current
    time, and [carbon_map] untouched. *)
Theorem get_carbon_fallback_order
  (float_of_str : string -> option pyfloat) (cfg : config) (w : world)
  (region : string) (st : state) :
  cache_stale cfg w region st ->
  let em := provider_value (electricitymap_provider float_of_str cfg w region) in
  let wt := provider_value (watttime_provider float_of_str cfg w) in
  let static :=
    match dict_get (JStr region) (carbon_map st) with
    | Some m => m
    | None => Fin (default_carbon cfg)
    end in
  exists v st',
    get_carbon float_of_str cfg w region st = (Ok v, st')
    /\ v = resolve_spec (provider_chain float_of_str cfg w region)
             (carbon_map st) (default_carbon cfg) region
    /\ (forall x, em = Some x -> v = x)
    /\ (em = None -> forall y, wt = Some y -> v = y)
    /\ (em = None -> wt = None -> v = static)
    /\ dict_get (JStr region) (_carbon_cache st') = Some (v, now w)
    /\ carbon_map st' = carbon_map st.
Proof.
  intros Hstale em wt static.
  rewrite (get_carbon_stale _ _ _ _ _ Hstale), get_carbon_miss_eq.
  eexists. eexists. split; [reflexivity|]. split; [reflexivity|].
  cbn [_carbon_cache carbon_map].
  repeat split; try apply dict_get_put_str;
    unfold resolve_spec, provider_chain, first_value; fold em; fold wt.
  - now intros x ->.
  - now intros -> y ->.
  - now intros -> ->.
Qed.

(** Electricitymap disabled, watttime failing and an entry as old as the
    TTL: the configured 420 is returned and cached. *)
Lemma get_carbon_fallback_order_witness :
  cache_stale watttime_only (offline 300) "eu" expired_entry
  /\ exists st',
       get_carbon no_strings watttime_only (offline 300) "eu" expired_entry
       = (Ok (Fin 420), st')
       /\ dict_get (JStr "eu") (_carbon_cache st') = Some (Fin 420, 300).
Proof.
  assert (H : cache_stale watttime_only (offline 300) "eu" expired_entry)
    by (vm_compute; discriminate).
  split; [exact H|].
  destruct (get_carbon_fallback_order no_strings watttime_only (offline 300)
              "eu" expired_entry H)
    as (v & st' & E & _ & _ & _ & Hv & Hc & _).
  rewrite (Hv eq_refl eq_refl) in E, Hc.
  exists st'. split; [exact E|exact Hc].
Defined.

(** C6.  For every prior state, configuration and provider behaviour:
    after a POST to [/update_carbon] whose body is an object with region
    [R] and a [carbon] that converts to [v], answered 200, a call
    [get_carbon(R)] made before the TTL has elapsed returns [v] and
    leaves the state as the handler left it.  In particular, after
    region eu, carbon 50 is posted, [get_carbon("eu")] returns 50.0
    whatever was cached before. *)
Theorem ingest_then_resolve
  (float_of_str : string -> option pyfloat) (cfg : config) :
  (forall (req : request) (t : Q) (st : state) (w : world) (n : Z)
          (m : list (string * json)) (R : string) (c : json) (v : pyfloat),
      path req = "/update_carbon" ->
      content_length req = Ok n ->
      loaded_body req n = Ok (JObj m) ->
      assoc "region" m = Some (JStr R) ->
      assoc "carbon" m = Some c ->
      py_float float_of_str c = Ok v ->
      now w - t < cache_ttl cfg ->
      exists st1,
        do_POST float_of_str req t st = (Ok ok_response, st1)
        /\ get_carbon float_of_str cfg w R st1 = (Ok v, st1))
  /\ (forall (t : Q) (st : state) (w : world),
        now w - t < cache_ttl cfg ->
        exists st1,
          do_POST float_of_str (post eu_50) t st = (Ok ok_response, st1)
          /\ get_carbon float_of_str cfg w "eu" st1 = (Ok (Fin 50), st1)).
Proof.
  assert (General :
    forall req t st w n m R c v,
      path req = "/update_carbon" ->
      content_length req = Ok n ->
      loaded_body req n = Ok (JObj m) ->
      assoc "region" m = Some (JStr R) ->
      assoc "carbon" m = Some c ->
      py_float float_of_str c = Ok v ->
      now w - t < cache_ttl cfg ->
      exists st1,
        do_POST float_of_str req t st = (Ok ok_response, st1)
        /\ get_carbon float_of_str cfg w R st1 = (Ok v, st1)).
  { intros req t st w n m R c v Hp Hl Hb Hr Hc Hv Hfresh.
    exists (ingested (JStr R) v t st). split.
    - rewrite (do_POST_eq float_of_str req t st n Hp Hl), Hb.
      rewrite (accepted_object float_of_str m (JStr R) c v Hc Hv);
        [reflexivity| now rewrite Hr | reflexivity].
    - apply (get_carbon_hit float_of_str cfg w R _ v t);
        [apply ingested_cache|exact Hfresh]. }
  split; [exact General|].
  intros t st w Hfresh.
  apply (General (post eu_50) t st w 1%Z
           [("region", JStr "eu"); ("carbon", JInt 50)] "eu" (JInt 50)
           (Fin 50)); try reflexivity.
  exact Hfresh.
Qed.

(** Posting region eu, carbon 50 over a cached 420, with providers that
    would answer 300: the next [get_carbon] for eu returns 50.0. *)
Lemma ingest_then_resolve_witness :
  exists st1,
    do_POST no_strings (post eu_50) 1000 configured_eu = (Ok ok_response, st1)
    /\ get_carbon no_strings metered_config (online 1000) "eu" st1
       = (Ok (Fin 50), st1).
Proof.
  apply (proj1 (ingest_then_resolve no_strings metered_config)
           (post eu_50) 1000 configured_eu (online 1000) 1%Z
           [("region", JStr "eu"); ("carbon", JInt 50)] "eu" (JInt 50)
           (Fin 50)); reflexivity.
Defined.

(** C7, as amended.  For a configuration, with [carbon_map] a dict and
    the TTL a number, whose two provider sections are mappings and for
    which the value line 145 falls back on, the [carbon_map] entry of
    the region or [default_carbon] when there is none, is one [float]
    converts: [get_carbon] returns a float, for every region, every
    state of the cache and every world, also one in which every request
    raises or answers with an arbitrary JSON value; the two fetchers
    return and never raise. *)
Theorem get_carbon_never_raises
  (float_of_str : string -> option pyfloat) (cfg : Raw.config) (w : world)
  (region : string) (st : Raw.state) (em : em_provider) (wt : wt_provider)
  (x : pyfloat) :
  Raw.electricitymap cfg = Some em ->
  Raw.watttime cfg = Some wt ->
  py_float float_of_str (Raw.fallback cfg region st) = Ok x ->
  (exists v st', Raw.get_carbon float_of_str cfg w region st = (Ok v, st'))
  /\ (forall zone, exists r,
         fetch_electricitymap float_of_str (Raw.sections em wt) w zone = Ok r)
  /\ (forall params, exists r,
         fetch_watttime_index float_of_str (Raw.sections em wt) w params
         = Ok r).
Proof.
  intros Hem Hwt Hx.
  split; [|split;
           [apply fetch_electricitymap_returns
           |apply fetch_watttime_index_returns]].
  destruct (raw_get_carbon_cases float_of_str cfg w region st) as [[v E]|E].
  - now exists v, st.
  - rewrite E.
    exact (raw_get_carbon_miss_returns float_of_str cfg w region st em wt x
             Hem Hwt Hx).
Qed.

(** Both providers on and failing, an expired entry, and [eu: 420] in
    [carbon_map]. *)
Lemma get_carbon_never_raises_witness :
  py_float no_strings (Raw.fallback loaded_config "eu" loaded_eu)
  = Ok (Fin 420)
  /\ exists v st',
       Raw.get_carbon no_strings loaded_config (offline 300) "eu" loaded_eu
       = (Ok v, st').
Proof.
  split; [reflexivity|].
  apply (get_carbon_never_raises no_strings loaded_config (offline 300) "eu"
           loaded_eu provider_on watttime_on (Fin 420));
    reflexivity.
Defined.

(** C7 as stated fails for a configuration whose [carbon_map] has [null]
    or a word for the region, and for one with an empty provider
    section: [get_carbon] raises, and caches nothing. *)
Lemma get_carbon_raises_on_null_entry :
  Raw.get_carbon no_strings (raw_config default_config) (offline 0) "eu"
    null_entry = (Raise TypeError, null_entry)
  /\ Raw.get_carbon no_strings (raw_config default_config) (offline 0) "eu"
       text_entry = (Raise ValueError, text_entry)
  /\ Raw.get_carbon no_strings empty_section (offline 0) "eu"
       (raw_state empty_state) = (Raise AttributeError, raw_state empty_state).
Proof. repeat split. Qed.




(** C9.  An accepted POST for region [R] with value [v] writes [v] into
    the cache and into [carbon_map] under [R], and leaves the entries of
    every other region as they were; so a [get_carbon(R)] made once the
    TTL has elapsed, with every provider disabled or yielding nothing,
    returns [v], whatever [carbon_map] held for [R] before. *)
Theorem ingested_value_outlives_ttl
  (float_of_str : string -> option pyfloat) (cfg : config) (req : request)
  (t : Q) (st : state) (w : world) (n : Z) (m : list (string * json))
  (R : string) (c : json) (v : pyfloat) :
  path req = "/update_carbon" ->
  content_length req = Ok n ->
  loaded_body req n = Ok (JObj m) ->
  assoc "region" m = Some (JStr R) ->
  assoc "carbon" m = Some c ->
  py_float float_of_str c = Ok v ->
  cache_ttl cfg <= now w - t ->
  first_value (provider_chain float_of_str cfg w R) = None ->
  exists st1 st2,
    do_POST float_of_str req t st = (Ok ok_response, st1)
    /\ dict_get (JStr R) (_carbon_cache st1) = Some (v, t)
    /\ dict_get (JStr R) (carbon_map st1) = Some v
    /\ (forall R', R' <> R ->
          dict_get (JStr R') (_carbon_cache st1)
          = dict_get (JStr R') (_carbon_cache st)
          /\ dict_get (JStr R') (carbon_map st1)
             = dict_get (JStr R') (carbon_map st))
    /\ get_carbon float_of_str cfg w R st1 = (Ok v, st2).
Proof.
  intros Hp Hl Hb Hr Hc Hv Hold Hnone.
  exists (ingested (JStr R) v t st). eexists. split.
  - rewrite (do_POST_eq float_of_str req t st n Hp Hl), Hb.
    rewrite (accepted_object float_of_str m (JStr R) c v Hc Hv);
      [reflexivity| now rewrite Hr | reflexivity].
  - split; [apply ingested_cache|]. split; [apply ingested_map|]. split.
    + intros R' Hne. split; now apply dict_get_put_other_str.
    + rewrite get_carbon_stale.
      * rewrite get_carbon_miss_eq. unfold resolve_spec.
        rewrite Hnone, ingested_map. reflexivity.
      * unfold cache_stale. now rewrite ingested_cache.
Qed.

(** Configured 420 for eu, 50 ingested at time 1000, providers failing at
    time 1300: [get_carbon] returns 50. *)
Lemma ingested_value_outlives_ttl_witness :
  dict_get (JStr "eu") (carbon_map configured_eu) = Some (Fin 420)
  /\ exists st1 st2,
       do_POST no_strings (post eu_50) 1000 configured_eu
       = (Ok ok_response, st1)
       /\ dict_get (JStr "eu") (_carbon_cache st1) = Some (Fin 50, 1000)
       /\ dict_get (JStr "eu") (carbon_map st1) = Some (Fin 50)
       /\ get_carbon no_strings metered_config (offline 1300) "eu" st1
          = (Ok (Fin 50), st2).
Proof.
  split; [reflexivity|].
  destruct (ingested_value_outlives_ttl no_strings metered_config
              (post eu_50) 1000 configured_eu (offline 1300) 1
              [("region", JStr "eu"); ("carbon", JInt 50)] "eu" (JInt 50)
              (Fin 50))
    as (st1 & st2 & E & Hc & Hm & _ & Hg); try reflexivity.
  - vm_compute. discriminate.
  - exists st1, st2. repeat split; assumption.
Defined.

(** C10.  A POST whose body is an object without [region] and with a
    [carbon] that converts to [v] is answered 200, and [v] is stored in
    the cache and in [carbon_map] under ["local"]; an iteration of the
    loop run before the TTL elapses scores with that [v] as its carbon
    intensity. *)
Theorem missing_region_is_local
  (float_of_str : string -> option pyfloat) (req : request) (t : Q)
  (st : state) (n : Z) (m : list (string * json)) (c : json) (v : pyfloat) :
  path req = "/update_carbon" ->
  content_length req = Ok n ->
  loaded_body req n = Ok (JObj m) ->
  assoc "region" m = None ->
  assoc "carbon" m = Some c ->
  py_float float_of_str c = Ok v ->
  exists st1,
    do_POST float_of_str req t st = (Ok ok_response, st1)
    /\ dict_get (JStr "local") (_carbon_cache st1) = Some (v, t)
    /\ dict_get (JStr "local") (carbon_map st1) = Some v
    /\ (forall cfg w p95 read,
          0 < slo_p95_ms cfg -> now w - t < cache_ttl cfg ->
          exists rep,
            run_cycle float_of_str cfg w p95 read st1 = (Ok rep, st1)
            /\ carbon_g (scores rep) = v).
Proof.
  intros Hp Hl Hb Hr Hc Hv.
  exists (ingested (JStr "local") v t st). split.
  - rewrite (do_POST_eq float_of_str req t st n Hp Hl), Hb.
    rewrite (accepted_object float_of_str m (JStr "local") c v Hc Hv);
      [reflexivity| now rewrite Hr | reflexivity].
  - split; [apply ingested_cache|]. split; [apply ingested_map|].
    intros cfg w p95 read Ht Hfresh.
    set (st1 := ingested (JStr "local") v t st).
    assert (Hhit : get_carbon float_of_str cfg w "local" st1 = (Ok v, st1)).
    { apply (get_carbon_hit float_of_str cfg w "local" st1 v t);
        [apply ingested_cache|exact Hfresh]. }
    destruct (run_cycle_eq float_of_str cfg w p95 read st1 Ht)
      as (sc & st' & Esc & E).
    destruct (compute_scores_eq float_of_str cfg w p95 "local" st1 Ht)
      as (s & v' & c' & k & st'' & _ & Ev & _ & _ & Esc').
    rewrite Hhit in Ev. injection Ev as <- <-.
    rewrite Esc' in Esc. injection Esc as <- <-.
    eexists. split; [exact E|]. now destruct read.
Qed.

(** Posting carbon 50 alone stores it under ["local"]. *)
Lemma missing_region_is_local_witness :
  exists st1,
    do_POST no_strings (post carbon_only) 1000 configured_eu
    = (Ok ok_response, st1)
    /\ dict_get (JStr "local") (_carbon_cache st1) = Some (Fin 50, 1000)
    /\ dict_get (JStr "local") (carbon_map st1) = Some (Fin 50).
Proof.
  destruct (missing_region_is_local no_strings (post carbon_only) 1000
              configured_eu 1 [("carbon", JInt 50)] (JInt 50) (Fin 50))
    as (st1 & E & Hc & Hm & _); try reflexivity.
  exists st1. split; [exact E|]. split; [exact Hc|exact Hm].
Defined.

(* ------------------------------------------------------------------ *)
(** ** Further properties of the code *)

(** *** The latency query and the loop around it *)

Section PrometheusFacts.

Variable float_of_str : string -> option pyfloat.

Lemma py_index_head (res first : json) :
  py_index res 0 = Ok first ->
  truthy res = true /\ exists n, py_len res = Ok n /\ (n >? 0)%Z = true.
Proof.
  destruct res as [| b | z | x | s | l | m]; try discriminate.
  - destruct s as [|c s]; [discriminate|]. intros _. split; [reflexivity|].
    eexists. split; [reflexivity|]. apply Z.gtb_lt. cbn [String.length]. lia.
  - destruct l as [|e l]; [discriminate|]. intros _. split; [reflexivity|].
    eexists. split; [reflexivity|]. apply Z.gtb_lt. cbn [List.length]. lia.
Qed.

Lemma py_getitem_in (j v : json) (k : string) :
  py_getitem j k = Ok v -> py_in k j = Ok true.
Proof.
  destruct j as [| b | z | x | s | l | m]; try discriminate.
  simpl. destruct (assoc k m); [reflexivity|discriminate].
Qed.

(** X1.  [query_p95] returns a latency exactly when the query went
    through, its result has a first element, that element is a dict with
    a [value], the entry at index 1 of that value converts with [float],
    and the latency is the converted number times 1000; in every other
    case, an exception included, it returns [None]. *)
Theorem query_p95_some (w : world) (p : pyfloat) :
  query_p95 float_of_str w = Some p <->
  exists res first value sample x,
    custom_query w = Ok res
    /\ py_index res 0 = Ok first
    /\ py_getitem first "value" = Ok value
    /\ py_index value 1 = Ok sample
    /\ py_float float_of_str sample = Ok x
    /\ p = fmul x (Fin 1000).
Proof.
  unfold query_p95. split.
  - destruct (custom_query w) as [res|e] eqn:Hq; [|discriminate].
    cbn [bind catch]. unfold p95_of_result.
    destruct (truthy res); [|discriminate].
    destruct (py_len res) as [n|e]; [|discriminate]. cbn [bind].
    destruct (n >? 0)%Z; [|discriminate].
    destruct (py_index res 0) as [first|e] eqn:Hf; [|discriminate].
    cbn [bind].
    destruct (py_in "value" first) as [[|]|e]; try discriminate. cbn [bind].
    destruct (py_getitem first "value") as [value|e] eqn:Hv; [|discriminate].
    cbn [bind].
    destruct (py_index value 1) as [sample|e] eqn:Hs; [|discriminate].
    cbn [bind].
    destruct (py_float float_of_str sample) as [x|e] eqn:Hx; [|discriminate].
    cbn [bind catch]. intro H. injection H as <-.
    exists res, first, value, sample, x. repeat split; assumption.
  - intros (res & first & value & sample & x & Hq & Hf & Hv & Hs & Hx & ->).
    rewrite Hq. cbn [bind]. unfold p95_of_result.
    destruct (py_index_head res first Hf) as [Ht [n [Hn Hpos]]].
    rewrite Ht, Hn. cbn [bind]. rewrite Hpos, Hf. cbn [bind].
    rewrite (py_getitem_in first value "value" Hv). cbn [bind].
    rewrite Hv. cbn [bind]. rewrite Hs. cbn [bind]. rewrite Hx. reflexivity.
Qed.

End PrometheusFacts.

Lemma query_p95_some_witness :
  query_p95 no_strings (online 0) = Some (fmul (Fin (25 # 100)) (Fin 1000)).
Proof.
  apply (proj2 (query_p95_some no_strings (online 0) _)).
  do 5 eexists. repeat split; reflexivity.
Defined.

Section LoopFacts.

Variable float_of_str : string -> option pyfloat.
Variable cfg : config.
Hypothesis target_pos : 0 < slo_p95_ms cfg.

(** The report of an iteration whose read of the replica count went
    through. *)
Lemma run_cycle_report (w : world) (p95 : option pyfloat) (cur : Z)
  (st : state) :
  exists s sc st',
    slo_score cfg p95 = Ok s
    /\ slo sc = s
    /\ run_cycle float_of_str cfg w p95 (Ok cur) st
       = (Ok {| scores := sc;
                replicas := Some (cur, new_replicas cfg p95 cur);
                patched :=
                  if negb (new_replicas cfg p95 cur =? cur)%Z
                  then Some (new_replicas cfg p95 cur) else None |}, st').
Proof.
  destruct (compute_scores_eq float_of_str cfg w p95 "local" st target_pos)
    as (s & v & c & k & st' & Es & _ & _ & _ & E).
  exists s. eexists. exists st'. split; [exact Es|].
  unfold run_cycle, bindM, ret. rewrite E.
  split. 2: reflexivity. reflexivity.
Qed.

(** X2.  An iteration whose latency query yields nothing scores the SLO
    at the neutral 0.5, keeps the replica count it read and does not
    patch. *)
Theorem no_measurement_no_patch (w : world) (st : state) (cur : Z) :
  query_p95 float_of_str w = None ->
  read_replicas w = Ok cur ->
  exists rep st',
    run_loop_body float_of_str cfg w st = (Ok rep, st')
    /\ slo (scores rep) = Fin (1 # 2)
    /\ replicas rep = Some (cur, cur)
    /\ patched rep = None.
Proof.
  intros Hq Hr. unfold run_loop_body. rewrite Hq, Hr.
  destruct (run_cycle_report w None cur st) as (s & sc & st' & Es & Hs & E).
  injection Es as <-.
  eexists. exists st'. split; [exact E|]. cbn. rewrite Z.eqb_refl.
  repeat split. exact Hs.
Qed.

(** X3.  A latency of [NaN], which Prometheus reports for a histogram
    without samples, scores the SLO at 0.0 and yet never scales: neither
    guard of the policy holds for it.  An infinite latency scores 0.0 and
    scales up like any violation. *)
Theorem non_finite_latency (w : world) (st : state) (cur : Z) :
  read_replicas w = Ok cur ->
  (query_p95 float_of_str w = Some NaN ->
   exists rep st',
     run_loop_body float_of_str cfg w st = (Ok rep, st')
     /\ slo (scores rep) = Fin 0
     /\ replicas rep = Some (cur, cur)
     /\ patched rep = None)
  /\ (query_p95 float_of_str w = Some PInf ->
      exists rep st',
        run_loop_body float_of_str cfg w st = (Ok rep, st')
        /\ slo (scores rep) = Fin 0
        /\ patched rep
           = if (cur <? max_replicas cfg)%Z then Some (cur + 1)%Z else None).
Proof.
  intro Hr. split; intro Hq; unfold run_loop_body; rewrite Hq, Hr.
  - destruct (run_cycle_report w (Some NaN) cur st)
      as (s & sc & st' & Es & Hs & E).
    rewrite (slo_score_NaN cfg target_pos) in Es. injection Es as <-.
    eexists. exists st'. split; [exact E|].
    cbn [scores replicas patched new_replicas fgt flt andb].
    rewrite Z.eqb_refl. repeat split. exact Hs.
  - destruct (run_cycle_report w (Some PInf) cur st)
      as (s & sc & st' & Es & Hs & E).
    rewrite (slo_score_PInf cfg target_pos) in Es. injection Es as <-.
    eexists. exists st'. split; [exact E|]. cbn [scores patched].
    split; [exact Hs|].
    unfold new_replicas. rewrite flt_PInf_l. cbn [fgt flt andb].
    destruct (cur <? max_replicas cfg)%Z eqn:E1.
    + apply Z.ltb_lt in E1. rewrite Z.min_r by lia.
      assert (E2 : (cur + 1 =? cur)%Z = false) by (apply Z.eqb_neq; lia).
      now rewrite E2.
    + now rewrite Z.eqb_refl.
Qed.

(** X4.  When reading the replica count fails, the iteration decides
    nothing and patches nothing, but it has scored all the same: the
    state it leaves is the one [get_carbon] leaves for the default
    region, and the intensity it reports is the one resolved. *)
Theorem failed_read_skips_decision (w : world) (st : state) (e : pyexn) :
  read_replicas w = Raise e ->
  exists rep st',
    run_loop_body float_of_str cfg w st = (Ok rep, st')
    /\ replicas rep = None
    /\ patched rep = None
    /\ get_carbon float_of_str cfg w "local" st
       = (Ok (carbon_g (scores rep)), st').
Proof.
  intro Hr. unfold run_loop_body. rewrite Hr.
  destruct (compute_scores_eq float_of_str cfg w (query_p95 float_of_str w)
              "local" st target_pos)
    as (s & v & c & k & st' & _ & Ev & _ & _ & E).
  eexists. exists st'. unfold run_cycle, bindM, ret. rewrite E.
  split; [reflexivity|]. repeat split. exact Ev.
Qed.

End LoopFacts.

Lemma no_measurement_no_patch_witness :
  exists rep st',
    run_loop_body no_strings default_config (blind 0) empty_state
    = (Ok rep, st')
    /\ slo (scores rep) = Fin (1 # 2)
    /\ replicas rep = Some (3%Z, 3%Z)
    /\ patched rep = None.
Proof.
  apply (no_measurement_no_patch no_strings default_config);
    reflexivity.
Defined.

Lemma non_finite_latency_witness :
  exists rep st',
    run_loop_body nan_only default_config (empty_histogram 0) empty_state
    = (Ok rep, st')
    /\ slo (scores rep) = Fin 0
    /\ replicas rep = Some (3%Z, 3%Z)
    /\ patched rep = None.
Proof.
  apply (proj1 (non_finite_latency nan_only default_config eq_refl
                  (empty_histogram 0) empty_state 3 eq_refl)).
  reflexivity.
Defined.

Lemma failed_read_skips_decision_witness :
  exists rep st',
    run_loop_body no_strings default_config (offline 0) empty_state
    = (Ok rep, st')
    /\ replicas rep = None
    /\ patched rep = None
    /\ get_carbon no_strings default_config (offline 0) "local" empty_state
       = (Ok (carbon_g (scores rep)), st').
Proof.
  apply (failed_read_skips_decision no_strings default_config eq_refl
           (offline 0) empty_state RequestException).
  reflexivity.
Defined.

(** *** What the providers' answers yield *)

Section ProviderFacts.

Variable float_of_str : string -> option pyfloat.

Lemma first_key_not_object (ks : list string) (j : json) :
  is_object j = false ->
  first_key ks j = Ok JNull \/ exists e, first_key ks j = Raise e.
Proof.
  intro Hj. induction ks as [|k ks IH]; [now left|].
  cbn [first_key].
  destruct j as [| b | z | x | s | l | m]; try discriminate;
    try (right; eexists; reflexivity).
  - cbn [py_in bind]. destruct (occurs_in k s); [|exact IH].
    right. eexists. reflexivity.
  - cbn [py_in bind]. destruct (existsb (is_str k) l); [|exact IH].
    right. eexists. reflexivity.
Qed.

Lemma electricitymap_value_not_object (j : json) :
  is_object j = false ->
  electricitymap_value float_of_str j = Ok None
  \/ exists e, electricitymap_value float_of_str j = Raise e.
Proof.
  intro Hj. unfold electricitymap_value.
  assert (Hd : py_in "data" j = Ok false
               \/ (exists e, py_in "data" j = Raise e)
               \/ (py_in "data" j = Ok true
                   /\ exists e, py_getitem j "data" = Raise e)).
  { destruct j as [| b | z | x | s | l | m]; try discriminate;
      try (right; left; eexists; reflexivity).
    - cbn [py_in]. destruct (occurs_in "data" s); [|now left].
      right. right. split; [reflexivity|]. eexists. reflexivity.
    - cbn [py_in]. destruct (existsb (is_str "data") l); [|now left].
      right. right. split; [reflexivity|]. eexists. reflexivity. }
  destruct Hd as [Hd|[[e Hd]|[Hd [e Hg]]]]; rewrite Hd; cbn [bind].
  - destruct (first_key_not_object
                ["carbonIntensity"; "carbon_intensity"; "gCO2eq_per_kWh"]
                j Hj) as [Hk|[e Hk]]; rewrite Hk; cbn [bind is_none].
    + now left.
    + right. eexists. reflexivity.
  - right. eexists. reflexivity.
  - rewrite Hg. cbn [bind]. right. eexists. reflexivity.
Qed.

Lemma watttime_value_not_object (j : json) :
  is_object j = false ->
  watttime_value float_of_str j = Ok None
  \/ exists e, watttime_value float_of_str j = Raise e.
Proof.
  intro Hj. unfold watttime_value, float_at.
  destruct j as [| b | z | x | s | l | m]; try discriminate;
    try (right; eexists; reflexivity); cbn [py_in bind py_getitem].
  - destruct (occurs_in "moer" s); [right; eexists; reflexivity|].
    destruct (occurs_in "index_value" s); [right; eexists; reflexivity|].
    destruct (occurs_in "value" s); [right; eexists; reflexivity|].
    now left.
  - destruct (existsb (is_str "moer") l); [right; eexists; reflexivity|].
    destruct (existsb (is_str "index_value") l);
      [right; eexists; reflexivity|].
    destruct (existsb (is_str "value") l); [right; eexists; reflexivity|].
    now left.
Qed.

(** X5.  Only a JSON object can carry an intensity: when the providers
    answer with anything else (a list, a string, a number, [null]), both
    fetchers report no value, also for a list or string that contains
    the very key names. *)
Theorem provider_value_needs_object (cfg : config) (w : world) :
  (forall endpoint params headers j,
      requests_get w endpoint params headers = Ok j -> is_object j = false) ->
  forall zone params,
    fetch_electricitymap float_of_str cfg w zone = Ok None
    /\ fetch_watttime_index float_of_str cfg w params = Ok None.
Proof.
  intros Hw zone params. split.
  - unfold fetch_electricitymap. destruct (_ || _); [reflexivity|].
    destruct (requests_get w _ _ _) as [j|e] eqn:Hj; [|reflexivity].
    cbn [bind]. apply Hw in Hj.
    destruct (electricitymap_value_not_object j Hj) as [H|[e H]];
      now rewrite H.
  - unfold fetch_watttime_index. destruct (_ || _); [reflexivity|].
    destruct (requests_get w _ _ _) as [j|e] eqn:Hj; [|reflexivity].
    cbn [bind]. apply Hw in Hj.
    destruct (watttime_value_not_object j Hj) as [H|[e H]];
      now rewrite H.
Qed.

Lemma first_key_object (ks : list string) (m : list (string * json)) :
  catch (val <- first_key ks (JObj m) ;;
         if is_none val then Ok None
         else (x <- py_float float_of_str val ;; Ok (Some x))) None
  = first_present float_of_str ks m.
Proof.
  induction ks as [|k ks IH]; [reflexivity|].
  cbn [first_key py_in bind first_present].
  destruct (assoc k m) as [v|] eqn:E; [|exact IH].
  cbn [py_getitem]. rewrite E. cbn [bind].
  destruct v; reflexivity.
Qed.

(** X6.  The candidate keys are tried in a fixed order, [moer],
    [index_value], [value] for watttime and, on a response without
    [data], [carbonIntensity], [carbon_intensity], [gCO2eq_per_kWh] for
    electricitymap; the first key present decides, and when its value
    does not convert there is no value, whatever the later keys hold. *)
Theorem provider_field_priority (m : list (string * json)) :
  catch (watttime_value float_of_str (JObj m)) None
  = first_present float_of_str ["moer"; "index_value"; "value"] m
  /\ (assoc "data" m = None ->
      catch (electricitymap_value float_of_str (JObj m)) None
      = first_present float_of_str
          ["carbonIntensity"; "carbon_intensity"; "gCO2eq_per_kWh"] m).
Proof.
  split.
  - unfold watttime_value, float_at. cbn [py_in bind first_present py_getitem].
    destruct (assoc "moer" m) as [v|]; [reflexivity|].
    destruct (assoc "index_value" m) as [v|]; [reflexivity|].
    destruct (assoc "value" m) as [v|]; reflexivity.
  - intro Hd. unfold electricitymap_value. cbn [py_in]. rewrite Hd.
    cbn [bind]. apply first_key_object.
Qed.

(** X7.  Inside [data] the value of [carbonIntensity] is taken when it
    is truthy, whatever else the response holds; a falsy one, such as a
    reading of zero, gives way to [carbon_intensity], and to no value at
    all when that key is missing, even if the top level has a reading. *)
Theorem electricitymap_nested_reading (m d : list (string * json))
  (a : json) :
  assoc "data" m = Some (JObj d) ->
  assoc "carbonIntensity" d = Some a ->
  catch (electricitymap_value float_of_str (JObj m)) None
  = if truthy a then
      catch (x <- py_float float_of_str a ;; Ok (Some x)) None
    else first_present float_of_str ["carbon_intensity"] d.
Proof.
  intros Hd Ha. unfold electricitymap_value.
  repeat (progress (rewrite ?Hd, ?Ha; cbn [bind py_in py_getitem py_get])).
  destruct (truthy a) eqn:Ht.
  - cbn [bind]. destruct a; try discriminate; reflexivity.
  - repeat (progress (rewrite ?Hd, ?Ha; cbn [bind py_in py_getitem py_get])).
    cbn [first_present].
    destruct (assoc "carbon_intensity" d) as [b|]; [|reflexivity].
    destruct b; reflexivity.
Qed.

End ProviderFacts.

Lemma provider_value_needs_object_witness :
  fetch_electricitymap no_strings metered_config
    (answering (JArr [JStr "data"; JInt 300]) 0) "eu" = Ok None
  /\ fetch_watttime_index no_strings metered_config
       (answering (JArr [JStr "data"; JInt 300]) 0) [] = Ok None.
Proof.
  apply (provider_value_needs_object no_strings metered_config
           (answering (JArr [JStr "data"; JInt 300]) 0)).
  intros endpoint params headers j H. injection H as <-. reflexivity.
Defined.

Lemma provider_field_priority_witness :
  catch (watttime_value no_strings
           (JObj [("index_value", JInt 40); ("moer", JStr "n/a")])) None
  = None.
Proof.
  exact (proj1 (provider_field_priority no_strings
                  [("index_value", JInt 40); ("moer", JStr "n/a")])).
Defined.

Lemma electricitymap_nested_reading_witness :
  catch (electricitymap_value no_strings
           (JObj [("data", JObj [("carbonIntensity", JInt 0)]);
                  ("carbonIntensity", JInt 300)])) None
  = None.
Proof.
  apply (electricitymap_nested_reading no_strings
           [("data", JObj [("carbonIntensity", JInt 0)]);
            ("carbonIntensity", JInt 300)]
           [("carbonIntensity", JInt 0)] (JInt 0)); reflexivity.
Defined.

(** *** The resolver and its cache *)

Section CacheFacts.

Context {V : Type}.

Lemma key_eqb_str_l (r : string) (k : json) :
  key_eqb (JStr r) k = true -> k = JStr r.
Proof.
  destruct k as [| b | z | x | s | l | m]; simpl; try discriminate.
  intro H. apply String.eqb_eq in H. now subst.
Qed.

(** Assignment under a string key leaves every other key as it was. *)
Lemma dict_get_put_other (k : json) (r : string) (v : V) (d : pydict V) :
  k <> JStr r -> dict_get k (dict_put (JStr r) v d) = dict_get k d.
Proof.
  intro Hne.
  assert (Hk : key_eqb (JStr r) k = false).
  { destruct (key_eqb (JStr r) k) eqn:E; [|reflexivity].
    apply key_eqb_str_l in E. contradiction. }
  induction d as [|[e x] d IH]; cbn [dict_get dict_put].
  - now rewrite Hk.
  - destruct (key_eqb e (JStr r)) eqn:E; cbn [dict_get].
    + apply key_eqb_str_inv in E. subst e. now rewrite Hk.
    + now rewrite IH.
Qed.

End CacheFacts.

Section ResolverProperties.

Variable float_of_str : string -> option pyfloat.
Variable cfg : config.

(** X8.  [get_carbon] writes one cache entry at most: [carbon_map] and
    the cache entries of every other key are as they were, whether the
    call hit the cache or went to the providers. *)
Theorem get_carbon_frame (w : world) (region : string) (st st' : state)
  (res : pyres pyfloat) :
  get_carbon float_of_str cfg w region st = (res, st') ->
  carbon_map st' = carbon_map st
  /\ forall k, k <> JStr region ->
       dict_get k (_carbon_cache st') = dict_get k (_carbon_cache st).
Proof.
  unfold get_carbon, bindM, get_state.
  assert (Hmiss :
    get_carbon_miss float_of_str cfg w region st = (res, st') ->
    carbon_map st' = carbon_map st
    /\ forall k, k <> JStr region ->
         dict_get k (_carbon_cache st') = dict_get k (_carbon_cache st)).
  { rewrite get_carbon_miss_eq. intro H. injection H as _ <-.
    split; [reflexivity|]. intros k Hk. now apply dict_get_put_other. }
  destruct (dict_get (JStr region) (_carbon_cache st)) as [[v ts]|];
    [|exact Hmiss].
  destruct (Qlt_bool _ _); [|exact Hmiss].
  intro H. injection H as _ <-. now split.
Qed.

(** X9.  What [get_carbon] returns is what the cache then holds for the
    region, under a timestamp younger than the TTL or equal to the time
    of the call. *)
Theorem get_carbon_cached (w : world) (region : string) (st st' : state)
  (v : pyfloat) :
  get_carbon float_of_str cfg w region st = (Ok v, st') ->
  exists ts,
    dict_get (JStr region) (_carbon_cache st') = Some (v, ts)
    /\ (now w - ts < cache_ttl cfg \/ ts = now w).
Proof.
  unfold get_carbon, bindM, get_state.
  assert (Hmiss :
    get_carbon_miss float_of_str cfg w region st = (Ok v, st') ->
    exists ts,
      dict_get (JStr region) (_carbon_cache st') = Some (v, ts)
      /\ (now w - ts < cache_ttl cfg \/ ts = now w)).
  { rewrite get_carbon_miss_eq. intro H. injection H as <- <-.
    exists (now w). split; [apply dict_get_put_str|now right]. }
  destruct (dict_get (JStr region) (_carbon_cache st)) as [[v0 ts]|] eqn:Hc;
    [|exact Hmiss].
  destruct (Qlt_bool _ _) eqn:Hf; [|exact Hmiss].
  intro H. injection H as <- <-. exists ts. split; [exact Hc|]. left.
  unfold Qlt_bool in Hf. apply negb_true_iff in Hf.
  apply Qnot_le_lt. intro Hle. apply Qle_bool_iff in Hle. congruence.
Qed.

(** X10.  After a call that missed the cache, every call made before
    the TTL has run out is answered from the cache: the same value, the
    state untouched, whatever the providers would answer by then. *)
Theorem get_carbon_once_per_window (w : world) (region : string)
  (st : state) :
  cache_stale cfg w region st ->
  exists v st1,
    get_carbon float_of_str cfg w region st = (Ok v, st1)
    /\ forall w',
         now w' - now w < cache_ttl cfg ->
         get_carbon float_of_str cfg w' region st1 = (Ok v, st1).
Proof.
  intro Hstale. rewrite (get_carbon_stale _ _ _ _ _ Hstale).
  rewrite get_carbon_miss_eq. eexists. eexists. split; [reflexivity|].
  intros w' Hw'. apply (get_carbon_hit _ _ _ _ _ _ (now w)); [|exact Hw'].
  apply dict_get_put_str.
Qed.

(** X11.  Once the TTL has run out, a provider that yields a value takes
    over from an ingested one: the provider's value is returned and
    cached, while [carbon_map] keeps what was ingested. *)
Theorem provider_replaces_expired_ingest (req : request) (t : Q)
  (st : state) (w : world) (n : Z) (m : list (string * json)) (R : string)
  (c : json) (v x : pyfloat) :
  path req = "/update_carbon" ->
  content_length req = Ok n ->
  loaded_body req n = Ok (JObj m) ->
  assoc "region" m = Some (JStr R) ->
  assoc "carbon" m = Some c ->
  py_float float_of_str c = Ok v ->
  cache_ttl cfg <= now w - t ->
  first_value (provider_chain float_of_str cfg w R) = Some x ->
  exists st1 st2,
    do_POST float_of_str req t st = (Ok ok_response, st1)
    /\ get_carbon float_of_str cfg w R st1 = (Ok x, st2)
    /\ dict_get (JStr R) (_carbon_cache st2) = Some (x, now w)
    /\ dict_get (JStr R) (carbon_map st2) = Some v.
Proof.
  intros Hp Hl Hb Hr Hc Hv Hold Hsome.
  exists (ingested (JStr R) v t st). eexists. split.
  - rewrite (do_POST_eq float_of_str req t st n Hp Hl), Hb.
    rewrite (accepted_object float_of_str m (JStr R) c v Hc Hv);
      [reflexivity| now rewrite Hr | reflexivity].
  - rewrite get_carbon_stale.
    + rewrite get_carbon_miss_eq. unfold resolve_spec. rewrite Hsome.
      split; [reflexivity|]. cbn [_carbon_cache carbon_map].
      split; [apply dict_get_put_str|apply ingested_map].
    + unfold cache_stale. now rewrite ingested_cache.
Qed.

End ResolverProperties.

Lemma get_carbon_frame_witness :
  exists v st',
    get_carbon no_strings metered_config (online 300) "us" configured_eu
    = (Ok v, st')
    /\ carbon_map st' = carbon_map configured_eu
    /\ dict_get (JStr "eu") (_carbon_cache st') = Some (Fin 420, 0).
Proof.
  pose proof (get_carbon_frame no_strings metered_config (online 300) "us"
                configured_eu) as F.
  destruct (get_carbon no_strings metered_config (online 300) "us"
              configured_eu) as [res st'] eqn:E.
  destruct (F st' res eq_refl) as [Hm Hc].
  vm_compute in E. injection E as <- <-.
  eexists. eexists. split; [reflexivity|]. split; [exact Hm|].
  rewrite Hc; [reflexivity|discriminate].
Defined.

Lemma get_carbon_cached_witness :
  exists ts,
    dict_get (JStr "us")
      (_carbon_cache
         (snd (get_carbon no_strings metered_config (online 300) "us"
                 configured_eu)))
    = Some (Fin 300, ts)
    /\ (now (online 300) - ts < cache_ttl metered_config
        \/ ts = now (online 300)).
Proof.
  apply (get_carbon_cached no_strings metered_config (online 300) "us"
           configured_eu). reflexivity.
Defined.

Lemma get_carbon_once_per_window_witness :
  cache_stale metered_config (offline 0) "us" configured_eu
  /\ exists v st1,
       get_carbon no_strings metered_config (offline 0) "us" configured_eu
       = (Ok v, st1)
       /\ get_carbon no_strings metered_config (online 299) "us" st1
          = (Ok v, st1).
Proof.
  assert (H : cache_stale metered_config (offline 0) "us" configured_eu)
    by exact I.
  split; [exact H|].
  destruct (get_carbon_once_per_window no_strings metered_config (offline 0)
              "us" configured_eu H) as (v & st1 & E & Hnext).
  exists v, st1. split; [exact E|]. apply Hnext. reflexivity.
Defined.

Lemma provider_replaces_expired_ingest_witness :
  exists st1 st2,
    do_POST no_strings (post eu_50) 1000 configured_eu = (Ok ok_response, st1)
    /\ get_carbon no_strings metered_config (online 1300) "eu" st1
       = (Ok (Fin 300), st2)
    /\ dict_get (JStr "eu") (_carbon_cache st2) = Some (Fin 300, 1300)
    /\ dict_get (JStr "eu") (carbon_map st2) = Some (Fin 50).
Proof.
  apply (provider_replaces_expired_ingest no_strings metered_config
           (post eu_50) 1000 configured_eu (online 1300) 1%Z
           [("region", JStr "eu"); ("carbon", JInt 50)] "eu" (JInt 50)
           (Fin 50) (Fin 300)); try reflexivity.
  vm_compute. discriminate.
Defined.

(** *** The scores *)

Section ScoreShapes.

Lemma pymax_zero_mono (x y : pyfloat) :
  fle x y = true -> fle (pymax (Fin 0) x) (pymax (Fin 0) y) = true.
Proof.
  unfold pymax, fgt.
  destruct x as [a| | |], y as [b| | |]; try discriminate; intro H;
    repeat match goal with
           | |- context [flt (Fin 0) (Fin ?q)] =>
               let E := fresh "E" in
               destruct (flt (Fin 0) (Fin q)) eqn:E;
               [apply flt_Fin in E | apply flt_Fin_false in E]
           end;
    try reflexivity; try apply fle_Fin in H; apply fle_Fin; lra.
Qed.

(** X12.  The carbon score is [1 - c / 1000] on the band from 0 to 1000,
    zero from 1000 upwards and for [NaN], and never increases with the
    intensity. *)
Theorem carbon_score_shape :
  (forall c, 0 <= c <= 1000 ->
     exists s, carbon_score (Fin c) = Ok (Fin s) /\ s == 1 - c / 1000)
  /\ (forall v, fle (Fin 1000) v = true -> carbon_score v = Ok (Fin 0))
  /\ carbon_score NaN = Ok (Fin 0)
  /\ (forall v1 v2, fle v1 v2 = true ->
        exists s1 s2,
          carbon_score v1 = Ok s1 /\ carbon_score v2 = Ok s2
          /\ fle s2 s1 = true).
Proof.
  assert (Hinv : / 1000 == 1 # 1000) by reflexivity.
  split; [|split; [|split]].
  - intros c [Hl Hu]. rewrite carbon_score_eq. cbn [fquot fsub fneg fadd].
    destruct (pymax_zero_Fin (1 + - (c / 1000))) as [s [-> Hs]].
    exists s. split; [reflexivity|]. rewrite Hs. apply Q.max_r.
    unfold Qdiv. rewrite Hinv. lra.
  - intros v Hv. rewrite carbon_score_eq.
    destruct v as [c| | |]; try discriminate; [|reflexivity].
    apply fle_Fin in Hv. cbn [fquot fsub fneg fadd]. unfold pymax, fgt.
    assert (E : flt (Fin 0) (Fin (1 + - (c / 1000))) = false).
    { apply flt_Fin_false. unfold Qdiv. rewrite Hinv. lra. }
    now rewrite E.
  - reflexivity.
  - intros v1 v2 H. rewrite !carbon_score_eq. eexists. eexists.
    split; [reflexivity|]. split; [reflexivity|].
    apply pymax_zero_mono.
    destruct v1 as [a| | |], v2 as [b| | |]; try discriminate;
      try reflexivity.
    apply fle_Fin in H. cbn [fquot fsub fneg fadd]. apply fle_Fin.
    unfold Qdiv. rewrite Hinv. lra.
Qed.

(** X13.  The cost score never raises, not even for a zero or negative
    [cost_norm_max], whose place a millionth takes; it is zero once
    [cost_per_replica] reaches the norm, and [1 - cost / norm] below. *)
Theorem cost_score_shape (cfg : config) :
  let norm := Qmax (1 # 1000000) (cost_norm_max cfg) in
  exists k,
    cost_score cfg = Ok (Fin k)
    /\ (norm <= cost_per_replica cfg -> k == 0)
    /\ (cost_per_replica cfg <= norm ->
        k == 1 - cost_per_replica cfg / norm).
Proof.
  intro norm. unfold cost_score.
  assert (Hd : exists d, pymax (Fin (1 # 1000000)) (Fin (cost_norm_max cfg))
                         = Fin d /\ d == norm).
  { unfold pymax, fgt. subst norm.
    destruct (flt _ _) eqn:E.
    - apply flt_Fin in E. eexists. split; [reflexivity|].
      symmetry. apply Q.max_r. lra.
    - apply flt_Fin_false in E. eexists. split; [reflexivity|].
      symmetry. apply Q.max_l. exact E. }
  destruct Hd as [d [-> Hd]].
  assert (Hpos : 0 < norm).
  { subst norm. apply Qlt_le_trans with (1 # 1000000); [reflexivity|].
    apply Q.le_max_l. }
  rewrite fdiv_Fin by (rewrite Hd; lra). cbn [bind fquot].
  assert (Hq : cost_per_replica cfg / d == cost_per_replica cfg / norm)
    by now rewrite Hd.
  set (q := cost_per_replica cfg / d) in *.
  assert (Hinv : 0 < / norm) by now apply Qinv_lt_0_compat.
  assert (H1 : norm * / norm == 1) by (apply Qmult_inv_r; lra).
  unfold pymin. destruct (flt (Fin q) (Fin 1)) eqn:E;
    cbn [fsub fneg fadd]; eexists; (split; [reflexivity|]).
  - apply flt_Fin in E. split.
    + intro H. exfalso. rewrite Hq in E. unfold Qdiv in E.
      set (i := / norm) in *. nra.
    + intros _. rewrite Hq. lra.
  - apply flt_Fin_false in E. split.
    + intros _. lra.
    + intro H. rewrite Hq in E. unfold Qdiv in *.
      set (i := / norm) in *. nra.
Qed.

End ScoreShapes.

Section ZeroTarget.

Variable float_of_str : string -> option pyfloat.
Variable cfg : config.

(** X14.  With a target of zero, scoring a latency that is not at most
    zero divides by zero: [compute_scores] raises before it resolves the
    carbon intensity, the cache is not touched, and the exception leaves
    the loop iteration. *)
Theorem zero_target_raises (w : world) (p : pyfloat) (region : string)
  (read : pyres Z) (st : state) :
  slo_p95_ms cfg == 0 ->
  fle p (Fin (slo_p95_ms cfg)) = false ->
  compute_scores float_of_str cfg w (Some p) region st
  = (Raise ZeroDivisionError, st)
  /\ run_cycle float_of_str cfg w (Some p) read st
     = (Raise ZeroDivisionError, st).
Proof.
  intros Ht Hp.
  assert (Hs : slo_score cfg (Some p) = Raise ZeroDivisionError).
  { unfold slo_score. rewrite Hp. unfold fdiv.
    assert (E : is_zero (Fin (slo_p95_ms cfg * 5)) = true).
    { apply Qeq_bool_iff. rewrite Ht. reflexivity. }
    now rewrite E. }
  assert (Hc : compute_scores float_of_str cfg w (Some p) region st
               = (Raise ZeroDivisionError, st)).
  { unfold compute_scores, bindM, lift. now rewrite Hs. }
  split; [exact Hc|].
  unfold run_cycle, bindM.
  assert (Hl : compute_scores float_of_str cfg w (Some p) "local" st
               = (Raise ZeroDivisionError, st)).
  { unfold compute_scores, bindM, lift. now rewrite Hs. }
  now rewrite Hl.
Qed.

End ZeroTarget.

Section DecisionInputs.

Variable float_of_str : string -> option pyfloat.

(** X15.  The replica decision is a function of the latency, the replica
    count read and the three policy parameters alone: carbon state,
    providers, weights and cost settings never change it. *)
Theorem decision_ignores_carbon (cfg1 cfg2 : config) (w1 w2 : world)
  (st1 st2 : state) (p95 : option pyfloat) (read : pyres Z) :
  0 < slo_p95_ms cfg1 ->
  slo_p95_ms cfg2 = slo_p95_ms cfg1 ->
  min_replicas cfg2 = min_replicas cfg1 ->
  max_replicas cfg2 = max_replicas cfg1 ->
  exists rep1 rep2 st1' st2',
    run_cycle float_of_str cfg1 w1 p95 read st1 = (Ok rep1, st1')
    /\ run_cycle float_of_str cfg2 w2 p95 read st2 = (Ok rep2, st2')
    /\ replicas rep1 = replicas rep2
    /\ patched rep1 = patched rep2.
Proof.
  intros Ht Hs Hmin Hmax.
  assert (Ht2 : 0 < slo_p95_ms cfg2) by now rewrite Hs.
  destruct (run_cycle_eq float_of_str cfg1 w1 p95 read st1 Ht)
    as (sc1 & st1' & _ & E1).
  destruct (run_cycle_eq float_of_str cfg2 w2 p95 read st2 Ht2)
    as (sc2 & st2' & _ & E2).
  eexists. eexists. exists st1', st2'.
  split; [exact E1|]. split; [exact E2|].
  assert (Hn : forall cur, new_replicas cfg2 p95 cur = new_replicas cfg1 p95 cur).
  { intro cur. unfold new_replicas, scale_down_threshold.
    now rewrite Hs, Hmin, Hmax. }
  destruct read as [cur|e]; cbn [replicas patched]; [|now split].
  rewrite Hn. now split.
Qed.

End DecisionInputs.

Lemma carbon_score_shape_witness :
  exists s, carbon_score (Fin 300) = Ok (Fin s) /\ s == 1 - 300 / 1000.
Proof.
  apply (proj1 carbon_score_shape). split; discriminate.
Defined.

Lemma cost_score_shape_witness :
  exists k, cost_score default_config = Ok (Fin k) /\ k == 98 # 100.
Proof.
  destruct (cost_score_shape default_config) as (k & E & _ & H).
  exists k. split; [exact E|]. rewrite H; [reflexivity|discriminate].
Defined.

Lemma zero_target_raises_witness :
  run_cycle no_strings (with_target 0 default_config) (offline 0)
    (Some (Fin 250)) (Ok 3%Z) empty_state
  = (Raise ZeroDivisionError, empty_state).
Proof.
  apply (zero_target_raises no_strings (with_target 0 default_config)
           (offline 0) (Fin 250) "local" (Ok 3%Z) empty_state);
    reflexivity.
Defined.

Lemma decision_ignores_carbon_witness :
  exists rep1 rep2 st1' st2',
    run_cycle no_strings default_config (offline 0) (Some (Fin 250))
      (Ok 3%Z) empty_state = (Ok rep1, st1')
    /\ run_cycle no_strings (with_weights 0 1 0 metered_config) (online 0)
         (Some (Fin 250)) (Ok 3%Z) negative_reading = (Ok rep2, st2')
    /\ replicas rep1 = replicas rep2
    /\ patched rep1 = patched rep2.
Proof.
  apply (decision_ignores_carbon no_strings default_config
           (with_weights 0 1 0 metered_config)); reflexivity.
Defined.

(** *** The policy over time *)

Section Convergence.

Variable cfg : config.
Hypothesis target_nonneg : 0 <= slo_p95_ms cfg.
Hypothesis target_binary64 : Binary64.exact (slo_p95_ms cfg) = true.

Lemma new_replicas_above (p : pyfloat) (cur : Z) :
  fgt p (Fin (slo_p95_ms cfg)) = true ->
  (cur <= max_replicas cfg)%Z ->
  new_replicas cfg (Some p) cur = Z.min (max_replicas cfg) (cur + 1).
Proof.
  intros Hp Hc. unfold new_replicas. rewrite Hp.
  rewrite (above_not_below cfg p
             (threshold_below_target cfg target_nonneg target_binary64) Hp).
  cbn [andb].
  destruct (cur <? max_replicas cfg)%Z eqn:E; [reflexivity|].
  apply Z.ltb_ge in E. lia.
Qed.

Lemma new_replicas_below (p : pyfloat) (cur : Z) :
  flt p (scale_down_threshold cfg) = true ->
  (min_replicas cfg <= cur)%Z ->
  new_replicas cfg (Some p) cur = Z.max (min_replicas cfg) (cur - 1).
Proof.
  intros Hp Hc. unfold new_replicas.
  assert (Hup : fgt p (Fin (slo_p95_ms cfg)) = false).
  { destruct (fgt p (Fin (slo_p95_ms cfg))) eqn:E; [|reflexivity].
    rewrite (above_not_below cfg p
               (threshold_below_target cfg target_nonneg target_binary64) E)
      in Hp.
    discriminate. }
  rewrite Hup, Hp. cbn [andb].
  destruct (cur >? min_replicas cfg)%Z eqn:E; [reflexivity|].
  assert (~ (min_replicas cfg < cur)%Z).
  { intro H. apply Z.gtb_lt in H. congruence. }
  lia.
Qed.

(** X16.  For a target that is a binary64 number and not negative: under
    a latency that stays above the target the policy adds one replica per
    iteration until [max_replicas] and then holds; under one that stays
    below [slo_p95_ms * 0.6], the product as line 238 computes it in
    binary64, it removes one per iteration until [min_replicas] and then
    holds. *)
Theorem sustained_latency_converges (p : pyfloat) (cur : Z) (n : nat) :
  (fgt p (Fin (slo_p95_ms cfg)) = true ->
   (cur <= max_replicas cfg)%Z ->
   Nat.iter n (new_replicas cfg (Some p)) cur
   = Z.min (max_replicas cfg) (cur + Z.of_nat n))
  /\ (flt p (scale_down_threshold cfg) = true ->
      (min_replicas cfg <= cur)%Z ->
      Nat.iter n (new_replicas cfg (Some p)) cur
      = Z.max (min_replicas cfg) (cur - Z.of_nat n)).
Proof.
  split; intros Hp Hc.
  - induction n as [|n IH].
    + change (Nat.iter 0 (new_replicas cfg (Some p)) cur) with cur.
      cbn [Z.of_nat]. lia.
    + rewrite Nat.iter_succ, IH, new_replicas_above by (auto; lia).
      rewrite Nat2Z.inj_succ. lia.
  - induction n as [|n IH].
    + change (Nat.iter 0 (new_replicas cfg (Some p)) cur) with cur.
      cbn [Z.of_nat]. lia.
    + rewrite Nat.iter_succ, IH, new_replicas_below by (auto; lia).
      rewrite Nat2Z.inj_succ. lia.
Qed.

End Convergence.

(** A latency of 100 ms against the target 200, from three replicas:
    down to the one of [min_replicas] after two iterations, and held. *)
Lemma sustained_latency_converges_witness :
  Nat.iter 5 (new_replicas scenario_config (Some (Fin 100))) 3%Z = 1%Z.
Proof.
  apply (proj2 (sustained_latency_converges scenario_config
                  ltac:(discriminate) ltac:(vm_compute; reflexivity)
                  (Fin 100) 3%Z 5%nat));
    [vm_compute; reflexivity|discriminate].
Defined.

(** *** The ingestion handler *)

Section HandlerProperties.

Variable float_of_str : string -> option pyfloat.

(** X17.  A request that declares no length, or none above zero, is
    answered 400 whatever it carries: the body is not read, [{}] stands
    in for it and has no [carbon]; nothing is written. *)
Theorem empty_body_rejected (req : request) (t : Q) (st : state) (n : Z) :
  path req = "/update_carbon" ->
  content_length req = Ok n ->
  (n <= 0)%Z ->
  do_POST float_of_str req t st = (Ok bad_request, st).
Proof.
  intros Hp Hl Hn. rewrite (do_POST_eq float_of_str req t st n Hp Hl).
  unfold loaded_body. assert (E : (n >? 0)%Z = false).
  { destruct (n >? 0)%Z eqn:E; [|reflexivity]. apply Z.gtb_lt in E. lia. }
  now rewrite E.
Qed.

(** X18.  Of two accepted updates the later one wins for its region, in
    the cache and in [carbon_map]; an update of another region leaves
    the earlier one in place. *)
Theorem last_update_wins (req1 req2 : request) (t1 t2 : Q) (st : state)
  (n1 n2 : Z) (R1 R2 : string) (v1 v2 : pyfloat) :
  path req1 = "/update_carbon" ->
  content_length req1 = Ok n1 ->
  accepted float_of_str (loaded_body req1 n1) = Some (JStr R1, v1) ->
  path req2 = "/update_carbon" ->
  content_length req2 = Ok n2 ->
  accepted float_of_str (loaded_body req2 n2) = Some (JStr R2, v2) ->
  exists st1 st2,
    do_POST float_of_str req1 t1 st = (Ok ok_response, st1)
    /\ do_POST float_of_str req2 t2 st1 = (Ok ok_response, st2)
    /\ dict_get (JStr R2) (_carbon_cache st2) = Some (v2, t2)
    /\ dict_get (JStr R2) (carbon_map st2) = Some v2
    /\ (R1 <> R2 ->
        dict_get (JStr R1) (_carbon_cache st2) = Some (v1, t1)
        /\ dict_get (JStr R1) (carbon_map st2) = Some v1).
Proof.
  intros Hp1 Hl1 Ha1 Hp2 Hl2 Ha2.
  exists (ingested (JStr R1) v1 t1 st).
  exists (ingested (JStr R2) v2 t2 (ingested (JStr R1) v1 t1 st)).
  split; [now rewrite (do_POST_eq float_of_str req1 t1 st n1 Hp1 Hl1), Ha1|].
  split; [now rewrite (do_POST_eq float_of_str req2 t2 _ n2 Hp2 Hl2), Ha2|].
  split; [apply ingested_cache|]. split; [apply ingested_map|].
  intro Hne. cbn [ingested _carbon_cache carbon_map].
  split; rewrite dict_get_put_other_str by exact Hne;
    apply dict_get_put_str.
Qed.

End HandlerProperties.

Section Acknowledgement.

Variable float_of_str : string -> option pyfloat.




End Acknowledgement.


Lemma empty_body_rejected_witness :
  do_POST no_strings (bare "/update_carbon") 0 configured_eu
  = (Ok bad_request, configured_eu).
Proof.
  apply (empty_body_rejected no_strings (bare "/update_carbon") 0
           configured_eu 0%Z); [reflexivity|reflexivity|discriminate].
Defined.

Lemma last_update_wins_witness :
  exists st1 st2,
    do_POST no_strings (post eu_50) 10 configured_eu = (Ok ok_response, st1)
    /\ do_POST no_strings (post carbon_only) 20 st1 = (Ok ok_response, st2)
    /\ dict_get (JStr "local") (_carbon_cache st2) = Some (Fin 50, 20)
    /\ dict_get (JStr "eu") (_carbon_cache st2) = Some (Fin 50, 10).
Proof.
  destruct (last_update_wins no_strings (post eu_50) (post carbon_only)
              10 20 configured_eu 1%Z 1%Z "eu" "local" (Fin 50) (Fin 50))
    as (st1 & st2 & E1 & E2 & Hc & _ & Hother); try reflexivity.
  exists st1, st2. repeat split; try assumption.
  apply Hother. discriminate.
Defined.

(** *** The replayer *)

Section ReplayerFacts.

Variable float_of_str : string -> option pyfloat.

Lemma replay_rows_app (rows1 rows2 : list csv_row) :
  replay_rows float_of_str (rows1 ++ rows2)%list
  = (replay_rows float_of_str rows1 ++ replay_rows float_of_str rows2)%list.
Proof.
  induction rows1 as [|row rows1 IH]; [reflexivity|].
  cbn [app replay_rows]. destruct (row_payload float_of_str row);
    [cbn [app]; now rewrite IH|exact IH].
Qed.

(** X19.  A row whose [carbon] is missing or does not convert is skipped
    and costs nothing but itself: the rows before and after it are
    posted as if it were not there, in their order. *)
Theorem replay_skips_bad_rows (rows1 rows2 : list csv_row) (bad : csv_row) :
  (forall x,
      py_float float_of_str
        (match row_get "carbon" bad with
         | Some v => json_of_field v
         | None => JNull
         end) <> Ok x) ->
  replay_once float_of_str (Some (rows1 ++ bad :: rows2)%list)
  = (replay_once float_of_str (Some rows1)
     ++ replay_once float_of_str (Some rows2))%list.
Proof.
  intro Hbad. cbn [replay_once]. rewrite replay_rows_app.
  f_equal. cbn [replay_rows]. unfold row_payload.
  destruct (py_float float_of_str _) as [x|e]; [|reflexivity].
  exfalso. exact (Hbad x eq_refl).
Qed.

Lemma replay_rows_in (rows : list csv_row) (p : json) :
  In p (replay_rows float_of_str rows) ->
  exists row, In row rows /\ row_payload float_of_str row = Ok p.
Proof.
  induction rows as [|row rows IH]; [intros []|].
  cbn [replay_rows]. destruct (row_payload float_of_str row) as [q|e] eqn:E.
  - intros [<-|H].
    + exists row. split; [now left|exact E].
    + destruct (IH H) as [r [Hr Er]]. exists r. split; [now right|exact Er].
  - intro H. destruct (IH H) as [r [Hr Er]]. exists r.
    split; [now right|exact Er].
Qed.

Lemma replay_rows_posts (rows : list csv_row) (row : csv_row) (p : json) :
  In row rows -> row_payload float_of_str row = Ok p ->
  In p (replay_rows float_of_str rows).
Proof.
  induction rows as [|r rows IH]; [intros []|].
  intros [->|H] E; cbn [replay_rows].
  - rewrite E. now left.
  - destruct (row_payload float_of_str r); [right|]; now apply IH.
Qed.

Lemma row_payload_accepted (row : csv_row) (p : json) :
  row_payload float_of_str row = Ok p ->
  exists region v, accepted float_of_str (Ok p) = Some (region, v).
Proof.
  unfold row_payload.
  destruct (py_float float_of_str _) as [x|e]; [|discriminate].
  cbn [bind]. intro H. injection H as <-.
  unfold accepted. cbn [assoc String.eqb Ascii.eqb Bool.eqb py_float].
  destruct (row_get "region" row) as [[s|]|]; eexists; eexists; reflexivity.
Qed.

(** X20.  Every payload the replayer posts is one the endpoint accepts:
    a request that delivers it is answered 200 and stored. *)
Theorem replayed_payload_accepted (file : option (list csv_row)) (p : json)
  (req : request) (t : Q) (st : state) (n : Z) :
  In p (replay_once float_of_str file) ->
  path req = "/update_carbon" ->
  content_length req = Ok n ->
  loaded_body req n = Ok p ->
  exists region v,
    do_POST float_of_str req t st = (Ok ok_response, ingested region v t st).
Proof.
  intros Hin Hp Hl Hb. destruct file as [rows|]; [|destruct Hin].
  destruct (replay_rows_in rows p Hin) as [row [_ E]].
  destruct (row_payload_accepted row p E) as [region [v Ha]].
  exists region, v.
  now rewrite (do_POST_eq float_of_str req t st n Hp Hl), Hb, Ha.
Qed.

(** X21.  A trace row with a region and a reading that converts to a
    finite number yields a payload that [requests.post] can encode, and
    whenever a request delivers that payload to the endpoint,
    [get_carbon] for that region returns the reading until the TTL has
    run out. *)
Theorem replayed_row_resolves (cfg : config) (rows : list csv_row)
  (row : csv_row) (R s : string) (q : Q) :
  In row rows ->
  row_get "region" row = Some (Some R) ->
  row_get "carbon" row = Some (Some s) ->
  float_of_str s = Some (Fin q) ->
  exists p,
    In p (replay_once float_of_str (Some rows))
    /\ encodable p = true
    /\ forall req t st n w,
         path req = "/update_carbon" ->
         content_length req = Ok n ->
         loaded_body req n = Ok p ->
         now w - t < cache_ttl cfg ->
         exists st1,
           do_POST float_of_str req t st = (Ok ok_response, st1)
           /\ get_carbon float_of_str cfg w R st1 = (Ok (Fin q), st1).
Proof.
  intros Hin Hr Hc Hv.
  assert (E : row_payload float_of_str row
              = Ok (JObj [("region", JStr R); ("carbon", JFloat (Fin q));
                          ("timestamp",
                           match row_get "timestamp" row with
                           | Some f => json_of_field f
                           | None => JStr EmptyString
                           end)])).
  { unfold row_payload. rewrite Hr, Hc. cbn [json_of_field py_float].
    now rewrite Hv. }
  eexists. split; [exact (replay_rows_posts rows row _ Hin E)|].
  split.
  { cbn [encodable forallb snd andb].
    now destruct (row_get "timestamp" row) as [[f|]|]. }
  intros req t st n w Hp Hl Hb Hfresh.
  exists (ingested (JStr R) (Fin q) t st). split.
  - now rewrite (do_POST_eq float_of_str req t st n Hp Hl), Hb.
  - apply (get_carbon_hit float_of_str cfg w R _ (Fin q) t);
      [apply ingested_cache|exact Hfresh].
Qed.

End ReplayerFacts.

Lemma replay_skips_bad_rows_witness :
  replay_once trace_reading
    (Some ([trace_row] ++ short_row :: [trace_row])%list)
  = (replay_once trace_reading (Some [trace_row])
     ++ replay_once trace_reading (Some [trace_row]))%list.
Proof.
  apply (replay_skips_bad_rows trace_reading [trace_row] [trace_row]
           short_row).
  intros x. discriminate.
Defined.

Lemma replayed_row_resolves_witness :
  exists p,
    In p (replay_once trace_reading (Some [short_row; trace_row]))
    /\ encodable p = true
    /\ exists st1,
         do_POST trace_reading (post p) 1000 configured_eu
         = (Ok ok_response, st1)
         /\ get_carbon trace_reading metered_config (online 1000) "eu" st1
            = (Ok (Fin (865 # 2)), st1).
Proof.
  destruct (replayed_row_resolves trace_reading metered_config
              [short_row; trace_row] trace_row "eu" "432.5" (865 # 2))
    as (p & Hin & Henc & Hnext); try reflexivity.
  - right. now left.
  - exists p. split; [exact Hin|]. split; [exact Henc|].
    apply (Hnext (post p) 1000 configured_eu 1%Z (online 1000));
      reflexivity.
Defined.

Lemma replayed_payload_accepted_witness :
  exists region v,
    do_POST trace_reading
      (post (JObj [("region", JStr "eu"); ("carbon", JFloat (Fin (865 # 2)));
                   ("timestamp", JStr "2024-01-01T00:00:00Z")]))
      1000 configured_eu
    = (Ok ok_response, ingested region v 1000 configured_eu).
Proof.
  apply (replayed_payload_accepted trace_reading (Some [trace_row])
           (JObj [("region", JStr "eu"); ("carbon", JFloat (Fin (865 # 2)));
                  ("timestamp", JStr "2024-01-01T00:00:00Z")])
           _ 1000 configured_eu 1%Z); try reflexivity.
  now left.
Defined.
